(** * The signup route of nextTravel: [src/app/api/auth/signup/route.ts]

    A shallow embedding of the [POST] handler and of the JavaScript
    operations it relies on, followed by the properties of the signup flow.

    Conventions of the embedding.
    - A JavaScript string is a [string]; each [ascii] stands for one UTF-16
      code unit below 256, so [String.length] is [.length].
    - A JSON number is modelled by the integer of its numeral; it stands for
      the double that numeral parses to.
    - An object is the list of its own properties in enumeration order.
    - [console.log] and [console.error] only write to the log and are left
      out; every other statement of the handler is embedded. *)

From Stdlib Require Import String Ascii List ZArith Lia Bool DecimalString.
Import ListNotations.
Local Open Scope string_scope.
#[local] Set Warnings "-register-all".

(** ** JavaScript values *)

Module JS.

Inductive value : Type :=
| Undefined
| Null
| Bool (b : bool)
| Num (z : Z)
| Str (s : string)
| Arr (l : list value)
| Obj (o : list (string * value)).

Definition object := list (string * value).

(** [o[k]] on the own properties of [o]. *)
Fixpoint lookup (k : string) (o : object) : value :=
  match o with
  | [] => Undefined
  | (k', v) :: o' => if String.eqb k k' then v else lookup k o'
  end.

(** [k in o] for an object without inherited property [k]. *)
Fixpoint has_key (k : string) (o : object) : bool :=
  match o with
  | [] => false
  | (k', _) :: o' => String.eqb k k' || has_key k o'
  end.

(** [delete o[k]]. *)
Fixpoint delete (k : string) (o : object) : object :=
  match o with
  | [] => []
  | (k', v) :: o' =>
      if String.eqb k k' then delete k o' else (k', v) :: delete k o'
  end.

(** ToBoolean, as used by [!x] and [if (x)]. *)
Definition truthy (v : value) : bool :=
  match v with
  | Undefined | Null => false
  | Bool b => b
  | Num z => negb (z =? 0)%Z
  | Str s => negb (String.eqb s "")
  | Arr _ | Obj _ => true
  end.

(** What a [throw] carries.  The handler inspects a caught value through
    [instanceof Error], [.name], [.message], ['code' in error], [.code],
    ['keyPattern' in error], [.keyPattern] and [.errors]; a thrown object is
    the record of these observations ([None] for a property that is not
    [in] the object). *)
Record error_object : Type := {
  instanceof_Error : bool;
  error_name : string;
  error_message : string;
  error_code : option value;
  error_keyPattern : option value;
  error_errors : option (list (string * string))
}.

Inductive thrown : Type :=
| NotAnObject                 (* a primitive or null was thrown *)
| Thrown (e : error_object).

Definition TypeError (msg : string) : thrown :=
  Thrown {| instanceof_Error := true; error_name := "TypeError";
            error_message := msg; error_code := None;
            error_keyPattern := None; error_errors := None |}.

(** A computation that returns or throws. *)
Inductive outcome (A : Type) : Type :=
| Return (a : A)
| Throw (e : thrown).
Arguments Return {A} a.
Arguments Throw {A} e.

Definition obind {A B} (m : outcome A) (f : A -> outcome B) : outcome B :=
  match m with
  | Return a => f a
  | Throw e => Throw e
  end.

(** *** Numbers

    [Num z] is the number the JSON numeral [z] parses to: [z] itself below
    2^53, from there on the double nearest to [z] (ties to even), and
    [Infinity] when that is out of range. *)

(** The decimal numeral of an integer. *)
Definition decimal (z : Z) : string :=
  NilZero.string_of_int (Z.to_int z).

(** The double nearest to [m], for [0 <= m]; [None] stands for [Infinity]. *)
Definition nearest_double (m : Z) : option Z :=
  if (m <? 2 ^ 53)%Z then Some m
  else
    let ulp := (2 ^ (Z.log2 m - 52))%Z in
    let q := (m / ulp)%Z in
    let r := (m mod ulp)%Z in
    let half := (ulp / 2)%Z in
    let q' := if (r <? half)%Z then q
              else if (half <? r)%Z then (q + 1)%Z
              else if Z.even q then q else (q + 1)%Z in
    let x := (q' * ulp)%Z in
    if (2 ^ 1024 <=? x)%Z then None else Some x.

(** The integer [c] is read back as the double [x], for [2^53 <= x]: it lies
    between the midpoints to the neighbours of [x], the midpoints included
    when the significand of [x] is even.  (Bounds are taken four-fold, the
    neighbour below a power of two being half as far.) *)
Definition reads_back (x c : Z) : bool :=
  let e := Z.log2 x in
  let ulp := (2 ^ (e - 52))%Z in
  let hi := (4 * x + 2 * ulp)%Z in
  let lo := if (x =? 2 ^ e)%Z then (4 * x - ulp)%Z else (4 * x - 2 * ulp)%Z in
  if Z.even (x / ulp)
  then ((lo <=? 4 * c) && (4 * c <=? hi))%Z
  else ((lo <? 4 * c) && (4 * c <? hi))%Z.

(** The decimal of [k] significant digits nearest to the double [x] that is
    read back as [x], if there is one; of two equally near, the even one. *)
Definition nearest_decimal (x : Z) (k : nat) : option Z :=
  let p := (10 ^ (Z.of_nat (String.length (decimal x)) - Z.of_nat k))%Z in
  let c1 := (x / p * p)%Z in
  let c2 := (c1 + p)%Z in
  match reads_back x c1, reads_back x c2 with
  | true, true =>
      if (x - c1 <? c2 - x)%Z then Some c1
      else if (c2 - x <? x - c1)%Z then Some c2
      else if Z.even (c1 / p) then Some c1 else Some c2
  | true, false => Some c1
  | false, true => Some c2
  | false, false => None
  end.

(** The shortest decimal that is read back as the double [x], for
    [2^53 <= x]: seventeen digits always suffice. *)
Definition shortest_decimal (x : Z) : Z :=
  match
    fold_left (fun found k =>
                 match found with
                 | Some c => Some c
                 | None => nearest_decimal x k
                 end) (seq 1 17) None
  with
  | Some c => c
  | None => x
  end.

Fixpoint strip_zeros (s : string) : string :=
  match s with
  | EmptyString => EmptyString
  | String c r =>
      match strip_zeros r with
      | EmptyString => if Ascii.eqb c "0" then EmptyString else String c EmptyString
      | r' => String c r'
      end
  end.

(** [d.ddde+n], the notation of a number from 10^21 on. *)
Definition exponent_notation (c : Z) : string :=
  let n := decimal (Z.of_nat (String.length (decimal c)) - 1) in
  match strip_zeros (decimal c) with
  | EmptyString => EmptyString
  | String d EmptyString => String d ("e+" ++ n)
  | String d digits => String d ("." ++ digits ++ "e+" ++ n)
  end.

(** [String(n)] for the number [Num z]. *)
Definition NumberToString (z : Z) : string :=
  let sign := if (z <? 0)%Z then "-" else "" in
  match nearest_double (Z.abs z) with
  | None => sign ++ "Infinity"
  | Some x =>
      let c := if (x <? 2 ^ 53)%Z then x else shortest_decimal x in
      sign ++ (if (c <? 10 ^ 21)%Z then decimal c else exponent_notation c)
  end.

(** ToString.  An array joins its elements with a comma, [null] and
    [undefined] elements giving the empty string; an object answers
    ["[object Object]"] through [Object.prototype.toString] unless an own
    [toString] property (never callable in parsed JSON) shadows it, in which
    case no primitive is obtained and a TypeError is thrown. *)
Fixpoint ToString (v : value) : outcome string :=
  match v with
  | Undefined => Return "undefined"
  | Null => Return "null"
  | Bool true => Return "true"
  | Bool false => Return "false"
  | Num z => Return (NumberToString z)
  | Str s => Return s
  | Arr l =>
      (fix join (l : list value) : outcome string :=
         match l with
         | [] => Return ""
         | x :: r =>
             obind (match x with
                    | Undefined | Null => Return ""
                    | _ => ToString x
                    end)
               (fun sx =>
                  match r with
                  | [] => Return sx
                  | _ :: _ => obind (join r) (fun sr => Return (sx ++ "," ++ sr))
                  end)
         end) l
  | Obj o =>
      if has_key "toString" o
      then Throw (TypeError "Cannot convert object to primitive value")
      else Return "[object Object]"
  end.

(** The names [0], [1], ... of the first [n] indices. *)
Definition index_keys (n : nat) : list string :=
  map (fun i => NumberToString (Z.of_nat i)) (seq 0 n).

(** [Object.keys(v)]. *)
Definition Object_keys (v : value) : outcome (list string) :=
  match v with
  | Undefined | Null =>
      Throw (TypeError "Cannot convert undefined or null to object")
  | Bool _ | Num _ => Return []
  | Str s => Return (index_keys (String.length s))
  | Arr l => Return (index_keys (List.length l))
  | Obj o => Return (map fst o)
  end.

(** [xs.join(sep)] on an array of strings. *)
Fixpoint join (sep : string) (xs : list string) : string :=
  match xs with
  | [] => ""
  | [x] => x
  | x :: r => x ++ sep ++ join sep r
  end.

(** *** Strings *)

(** White space and line terminators: the characters of [\s] and the ones
    [trim] removes. *)
Definition is_space (c : ascii) : bool :=
  let n := nat_of_ascii c in
  (((9 <=? n) && (n <=? 13)) || (n =? 32) || (n =? 160))%nat.

Definition lower_char (c : ascii) : ascii :=
  let n := nat_of_ascii c in
  if (((65 <=? n) && (n <=? 90))
      || ((192 <=? n) && (n <=? 222) && negb (n =? 215)))%nat
  then ascii_of_nat (n + 32) else c.

(** [s.toLowerCase()] on code units below 256, each of which has a lower
    case of one code unit below 256.  (Beyond them the lower case may be
    longer: U+0130 has one of two code units.) *)
Fixpoint toLowerCase (s : string) : string :=
  match s with
  | EmptyString => EmptyString
  | String c r => String (lower_char c) (toLowerCase r)
  end.

Fixpoint trimStart (s : string) : string :=
  match s with
  | EmptyString => EmptyString
  | String c r => if is_space c then trimStart r else s
  end.

(** Drops the trailing white space: a character is kept when it is not
    white space or when something is kept after it. *)
Fixpoint trimEnd (s : string) : string :=
  match s with
  | EmptyString => EmptyString
  | String c r =>
      match trimEnd r with
      | EmptyString => if is_space c then EmptyString else String c EmptyString
      | r' => String c r'
      end
  end.

(** [s.trim()]. *)
Definition trim (s : string) : string := trimEnd (trimStart s).

(** *** Regular expressions

    Patterns without groups or back-references, matched against the whole
    subject (the pattern of the handler is anchored by [^] and [$]). *)

Inductive regex : Type :=
| Never                         (* matches nothing *)
| Eps                           (* matches the empty string *)
| Class (p : ascii -> bool)     (* one character of a class *)
| Seq (r1 r2 : regex)
| Alt (r1 r2 : regex)
| Star (r : regex).

Definition Plus (r : regex) : regex := Seq r (Star r).
Definition Chr (c : ascii) : regex := Class (Ascii.eqb c).

Fixpoint nullable (r : regex) : bool :=
  match r with
  | Never => false
  | Eps => true
  | Class _ => false
  | Seq r1 r2 => nullable r1 && nullable r2
  | Alt r1 r2 => nullable r1 || nullable r2
  | Star _ => true
  end.

(** The residual of [r] after reading [c]. *)
Fixpoint deriv (c : ascii) (r : regex) : regex :=
  match r with
  | Never => Never
  | Eps => Never
  | Class p => if p c then Eps else Never
  | Seq r1 r2 =>
      if nullable r1
      then Alt (Seq (deriv c r1) r2) (deriv c r2)
      else Seq (deriv c r1) r2
  | Alt r1 r2 => Alt (deriv c r1) (deriv c r2)
  | Star r1 => Seq (deriv c r1) (Star r1)
  end.

(** [/^r$/.test(s)] on a string. *)
Fixpoint regex_test (r : regex) (s : string) : bool :=
  match s with
  | EmptyString => nullable r
  | String c s' => regex_test (deriv c r) s'
  end.

(** The strings a pattern denotes. *)
Inductive matches : regex -> string -> Prop :=
| matches_Eps : matches Eps ""
| matches_Class (p : ascii -> bool) (c : ascii) :
    p c = true -> matches (Class p) (String c "")
| matches_Seq (r1 r2 : regex) (s1 s2 : string) :
    matches r1 s1 -> matches r2 s2 -> matches (Seq r1 r2) (s1 ++ s2)
| matches_Alt_l (r1 r2 : regex) (s : string) :
    matches r1 s -> matches (Alt r1 r2) s
| matches_Alt_r (r1 r2 : regex) (s : string) :
    matches r2 s -> matches (Alt r1 r2) s
| matches_Star_nil (r : regex) : matches (Star r) ""
| matches_Star_cons (r : regex) (s1 s2 : string) :
    matches r s1 -> matches (Star r) s2 -> matches (Star r) (s1 ++ s2).

(** Every character of [s] is in the class [p]. *)
Fixpoint all_chars (p : ascii -> bool) (s : string) : bool :=
  match s with
  | EmptyString => true
  | String c r => p c && all_chars p r
  end.

End JS.

(** ** The signup handler *)

Module Signup.
Import JS.

(** [interface UserData]: the record handed to [User.create].  [phone] is
    [None] when [phone?.trim()] is [undefined], [employeeId] when the
    property is not set. *)
Record UserData : Type := {
  name : string;
  email : string;
  password : value;
  phone : option string;
  role : value;
  employeeId : option value
}.

(** What [NextResponse.json(body, { status })] builds. *)
Record Response : Type := {
  status : Z;
  json : value
}.

(** The incoming request: [request_json] is the value [await request.json()]
    resolves to, [None] when it rejects. *)
Record Request : Type := {
  request_json : option value
}.

(** The collaborators imported from [@/lib/db] and [@/models/User], over a
    store of their own.  [User_findOne v] stands for
    [User.findOne({ email: v }).select('_id').lean()], which resolves to a
    document or to [null]; [User_create] for [User.create(userData)]
    followed by [user.toObject()].  Each may throw. *)
Class Repository : Type := {
  store : Type;
  connectDB : store -> outcome unit * store;
  User_findOne : value -> store -> outcome (option object) * store;
  User_create : UserData -> store -> outcome object * store
}.

(** The calls the handler makes on the repository, oldest first. *)
Inductive call : Type :=
| Connect
| FindOne (v : value)
| Create (userData : UserData).


(** The helper [handleError]; a call site that leaves [status] out gets the
    default 400. *)
Definition handleError (message : string) (status : Z) : Response :=
  {| status := status; json := Obj [("message", Str message)] |}.

Definition not_space_at (c : ascii) : bool :=
  negb (is_space c) && negb (Ascii.eqb c "@").

(** [/^[^\s@]+@[^\s@]+\.[^\s@]+$/] *)
Definition emailRegex : regex :=
  Seq (Plus (Class not_space_at))
    (Seq (Chr "@")
       (Seq (Plus (Class not_space_at))
          (Seq (Chr ".")
             (Plus (Class not_space_at))))).

(** [emailRegex.test(v)]: the argument is converted to a string first. *)
Definition emailRegex_test (v : value) : outcome bool :=
  obind (ToString v) (fun s => Return (regex_test emailRegex s)).

(** [v.length]. *)
Definition member_length (v : value) : outcome value :=
  match v with
  | Undefined =>
      Throw (TypeError "Cannot read properties of undefined (reading 'length')")
  | Null =>
      Throw (TypeError "Cannot read properties of null (reading 'length')")
  | Bool _ | Num _ => Return Undefined
  | Str s => Return (Num (Z.of_nat (String.length s)))
  | Arr l => Return (Num (Z.of_nat (List.length l)))
  | Obj o => Return (lookup "length" o)
  end.

(** [receiver.method()] for the string methods [trim] and [toLowerCase]:
    only a string has them.  The TypeError texts are the engine's (V8). *)
Definition call_string_method (f : string -> string) (receiver method : string)
    (v : value) : outcome string :=
  match v with
  | Str s => Return (f s)
  | Undefined =>
      Throw (TypeError ("Cannot read properties of undefined (reading '"
                          ++ method ++ "')"))
  | Null =>
      Throw (TypeError ("Cannot read properties of null (reading '"
                          ++ method ++ "')"))
  | _ => Throw (TypeError (receiver ++ "." ++ method ++ " is not a function"))
  end.

(** [receiver?.trim()] *)
Definition optional_trim (receiver : string) (v : value) : outcome (option string) :=
  match v with
  | Undefined | Null => Return None
  | Str s => Return (Some (trim s))
  | _ => Throw (TypeError (receiver ++ "?.trim is not a function"))
  end.

(** [body.k] for a property name [k] that no prototype defines. *)
Definition member (body : value) (k : string) : value :=
  match body with
  | Obj o => lookup k o
  | _ => Undefined
  end.

(** [const { name, email, password, phone, role = 'user' } = body] *)
Definition destructure (body : value)
  : outcome (value * value * value * value * value) :=
  match body with
  | Undefined | Null =>
      Throw (TypeError "Cannot destructure property 'name' of 'body' as it is null.")
  | _ =>
      Return (member body "name", member body "email", member body "password",
              member body "phone",
              match member body "role" with
              | Undefined => Str "user"
              | v => v
              end)
  end.

(** [`${field}`] for [field = keys[0]]. *)
Definition template_field (field : option string) : string :=
  match field with
  | Some f => f
  | None => "undefined"
  end.

(** [error && typeof error === 'object' && 'code' in error && error.code === 11000] *)
Definition is_duplicate_key (error : thrown) : bool :=
  match error with
  | NotAnObject => false
  | Thrown e =>
      match error_code e with
      | Some (Num code) => (code =? 11000)%Z
      | _ => false
      end
  end.

(** [error instanceof Error && error.name === 'ValidationError'] *)
Definition is_ValidationError (error : thrown) : bool :=
  match error with
  | NotAnObject => false
  | Thrown e => instanceof_Error e && String.eqb (error_name e) "ValidationError"
  end.

(** [error instanceof Error ? error.message : 'Unknown error occurred'] *)
Definition errorMessage (error : thrown) : string :=
  match error with
  | NotAnObject => "Unknown error occurred"
  | Thrown e =>
      if instanceof_Error e then error_message e else "Unknown error occurred"
  end.

(** The [keyPattern] the handler takes the keys of: [error.keyPattern] when
    the property is [in] the error, [{}] otherwise. *)
Definition keyPattern_of (error : thrown) : value :=
  match error with
  | NotAnObject => Obj []
  | Thrown e =>
      match error_keyPattern e with
      | Some kp => kp
      | None => Obj []
      end
  end.

(** [Object.values(validationError.errors).map(err => err.message)] *)
Definition validation_messages (error : thrown) : outcome (list string) :=
  match error with
  | Thrown {| error_errors := Some errs |} => Return (map snd errs)
  | _ => Throw (TypeError "Cannot convert undefined or null to object")
  end.

(** The [catch] clause of the database block. *)
Definition catch_database (error : thrown) : outcome Response :=
  if is_duplicate_key error then
    obind (Object_keys (keyPattern_of error)) (fun keys =>
    let field := hd_error keys in
    Return (handleError (template_field field ++ " already exists") 400))
  else if is_ValidationError error then
    obind (validation_messages error) (fun errors =>
    Return (handleError (join ", " errors) 400))
  else
    Return (handleError ("Database operation failed: " ++ errorMessage error) 500).

(** [s < 6] for a string [s]: the string is converted by the engine's
    [StringToNumber], of which the handler uses nothing but this
    comparison. *)
Class Engine : Type := {
  StringToNumber_lt_6 : string -> bool
}.

Section Handler.

Context {E : Engine} {R : Repository}.

(** The state a request runs in. *)
Record world : Type := {
  db : store;
  calls : list call
}.

Definition M (A : Type) : Type := world -> outcome A * world.

Definition ret {A} (a : A) : M A := fun w => (Return a, w).

Definition bind {A B} (m : M A) (f : A -> M B) : M B :=
  fun w =>
    match m w with
    | (Return a, w') => f a w'
    | (Throw e, w') => (Throw e, w')
    end.

Definition lift {A} (o : outcome A) : M A := fun w => (o, w).

(** [try { m } catch (error) { h error }] *)
Definition try_catch {A} (m : M A) (h : thrown -> M A) : M A :=
  fun w =>
    match m w with
    | (Return a, w') => (Return a, w')
    | (Throw e, w') => h e w'
    end.

Notation "x <- m ;; k" := (bind m (fun x => k))
  (at level 61, m at next level, right associativity).

Definition on_repository {A} (c : call) (op : store -> outcome A * store) : M A :=
  fun w =>
    let (r, s) := op (db w) in
    (r, {| db := s; calls := calls w ++ [c] |}).

(** [x < 6] for the number 6: both sides are converted to numbers. *)
Definition lt_6 (x : value) : outcome bool :=
  match x with
  | Undefined => Return false
  | Null | Bool _ => Return true
  | Num z => Return (z <? 6)%Z
  | Str s => Return (StringToNumber_lt_6 s)
  | Arr _ => obind (ToString x) (fun s => Return (StringToNumber_lt_6 s))
  | Obj o =>
      if has_key "toString" o
      then Throw (TypeError "Cannot convert object to primitive value")
      else Return false
  end.

(** The inner [try] block: connect, look the email up, create the user. *)
Definition POST_database (body name email password phone role : value)
  : M Response :=
  _ <- on_repository Connect connectDB ;;
  existingUser <- on_repository (FindOne email) (User_findOne email) ;;
  match existingUser with
  | Some _ => ret (handleError "User with this email already exists" 400)
  | None =>
      name' <- lift (call_string_method trim "name" "trim" name) ;;
      lower <- lift (call_string_method toLowerCase "email" "toLowerCase" email) ;;
      phone' <- lift (optional_trim "phone" phone) ;;
      let userData :=
        {| name := name'; email := trim lower; password := password;
           phone := phone'; role := role;
           employeeId :=
             if truthy (member body "employeeId")
             then Some (member body "employeeId") else None |} in
      userObject <- on_repository (Create userData) (User_create userData) ;;
      let userWithoutPassword := delete "password" userObject in
      ret {| status := 201;
             json := Obj [("user", Obj userWithoutPassword);
                          ("message", Str "User created successfully");
                          ("success", Bool true)] |}
  end.

(** The body of the outer [try]. *)
Definition POST_try (request : Request) : M Response :=
  match request_json request with
  | None => ret (handleError "Invalid JSON payload" 400)
  | Some body =>
      fields <- lift (destructure body) ;;
      let '(name, email, password, phone, role) := fields in
      if negb (truthy name) || negb (truthy email) || negb (truthy password)
      then ret (handleError "Name, email, and password are required" 400)
      else
        wellFormed <- lift (emailRegex_test email) ;;
        if negb wellFormed
        then ret (handleError "Please enter a valid email address" 400)
        else
          len <- lift (member_length password) ;;
          short <- lift (lt_6 len) ;;
          if short
          then ret (handleError "Password must be at least 6 characters long" 400)
          else
            try_catch (POST_database body name email password phone role)
                      (fun error => lift (catch_database error))
  end.

(** [export async function POST(request)] *)
Definition POST (request : Request) (w : world) : Response * world :=
  match POST_try request w with
  | (Return response, w') => (response, w')
  | (Throw _, w') => (handleError "An unexpected error occurred" 500, w')
  end.

(** *** The validation prefix of the handler

    What [POST_try] does before it enters the database block, as a value:
    an early [return handleError(...)], a throw, or the destructured
    fields with which the database block is entered. *)
Inductive validation : Type :=
| Rejected (response : Response)
| Faulted (e : thrown)
| Accepted (body name email password phone role : value).

Definition validate (request : Request) : validation :=
  match request_json request with
  | None => Rejected (handleError "Invalid JSON payload" 400)
  | Some body =>
      match destructure body with
      | Throw e => Faulted e
      | Return (name, email, password, phone, role) =>
          if negb (truthy name) || negb (truthy email) || negb (truthy password)
          then Rejected (handleError "Name, email, and password are required" 400)
          else
            match emailRegex_test email with
            | Throw e => Faulted e
            | Return wellFormed =>
                if negb wellFormed
                then Rejected (handleError "Please enter a valid email address" 400)
                else
                  match obind (member_length password) lt_6 with
                  | Throw e => Faulted e
                  | Return short =>
                      if short
                      then Rejected (handleError
                                       "Password must be at least 6 characters long" 400)
                      else Accepted body name email password phone role
                  end
            end
      end
  end.

(** The calls a request adds to the log of [w]. *)
Definition new_calls (request : Request) (w : world) : list call :=
  skipn (List.length (calls w)) (calls (snd (POST request w))).

End Handler.

(** The shape [local@domain.tld]: three non-empty runs of characters that
    are neither white space nor [@], separated by [@] and by a dot. *)
Definition local_at_domain_tld (s : string) : Prop :=
  exists l d t,
    s = l ++ "@" ++ d ++ "." ++ t
    /\ l <> "" /\ d <> "" /\ t <> ""
    /\ all_chars not_space_at l = true
    /\ all_chars not_space_at d = true
    /\ all_chars not_space_at t = true.

(** *** What a response discloses *)

(** The [password] property is present in a payload when the payload has it
    or the [user] object it carries has it. *)
Definition password_present (payload : value) : bool :=
  match payload with
  | Obj o =>
      has_key "password" o
      || match lookup "user" o with
         | Obj u => has_key "password" u
         | _ => false
         end
  | _ => false
  end.

(** *** Normal forms of strings *)

Definition starts_with_space (s : string) : bool :=
  match s with
  | EmptyString => false
  | String c _ => is_space c
  end.

Fixpoint ends_with_space (s : string) : bool :=
  match s with
  | EmptyString => false
  | String c EmptyString => is_space c
  | String _ r => ends_with_space r
  end.

Definition trimmed (s : string) : bool :=
  negb (starts_with_space s) && negb (ends_with_space s).

(** A character that [toLowerCase] changes. *)
Definition is_upper (c : ascii) : bool :=
  negb (Ascii.eqb (lower_char c) c).

Fixpoint lower_cased (s : string) : bool :=
  match s with
  | EmptyString => true
  | String c r => negb (is_upper c) && lower_cased r
  end.


(** A string without white space. *)
Definition no_space (s : string) : bool :=
  all_chars (fun c => negb (is_space c)) s.

(** The number of occurrences of a character. *)
Fixpoint count_char (c : ascii) (s : string) : nat :=
  match s with
  | EmptyString => 0
  | String c' r => (if Ascii.eqb c c' then 1 else 0) + count_char c r
  end.

(** ** Repositories to run the handler against *)

(** Modelled from the spec: the User repository of section 4.2, whose code
    ([@/models/User] and [@/lib/db]) is not among the sources.  A record is
    found by its email; [create] assigns an identifier, hashes the password
    internally and enforces email uniqueness at the storage layer, failing
    with a duplicate key on [email]; an unreachable store fails every
    connection. *)
Module InMemory.

Record state : Type := {
  online : bool;
  users : list object
}.

Definition has_email (e : string) (user : object) : bool :=
  match lookup "email" user with
  | Str e' => String.eqb e e'
  | _ => false
  end.

Definition findByEmail (v : value) (s : state) : option object :=
  match v with
  | Str e => find (has_email e) (users s)
  | _ => None
  end.

Definition ConnectionFailure : thrown :=
  Thrown {| instanceof_Error := true; error_name := "MongooseServerSelectionError";
            error_message := "connect ECONNREFUSED 127.0.0.1:27017";
            error_code := None; error_keyPattern := None; error_errors := None |}.

Definition DuplicateKey (field : string) : thrown :=
  Thrown {| instanceof_Error := true; error_name := "MongoServerError";
            error_message := "E11000 duplicate key error";
            error_code := Some (Num 11000);
            error_keyPattern := Some (Obj [(field, Num 1)]);
            error_errors := None |}.

(** The hash is left unspecified by the spec; any value that is not the
    password does here. *)
Definition hash (password : value) : value := Str "$2a$10$hash".

Definition document (id : nat) (u : UserData) : object :=
  ([("_id", Num (Z.of_nat id)); ("name", Str (name u)); ("email", Str (email u));
    ("password", hash (password u))]
   ++ match phone u with Some p => [("phone", Str p)] | None => [] end
   ++ [("role", role u)]
   ++ match employeeId u with Some i => [("employeeId", i)] | None => [] end)%list.

Definition connect (s : state) : outcome unit * state :=
  if online s then (Return tt, s) else (Throw ConnectionFailure, s).

Definition findOne (v : value) (s : state) : outcome (option object) * state :=
  match findByEmail v s with
  | Some user => (Return (Some [("_id", lookup "_id" user)]), s)
  | None => (Return None, s)
  end.

Definition create (u : UserData) (s : state) : outcome object * state :=
  match find (has_email (email u)) (users s) with
  | Some _ => (Throw (DuplicateKey "email"), s)
  | None =>
      let doc := document (List.length (users s)) u in
      (Return doc, {| online := online s; users := users s ++ [doc] |})
  end.

Definition repository : Repository :=
  {| store := state; connectDB := connect;
     User_findOne := findOne; User_create := create |}.

End InMemory.

(** A repository that answers each call with a scripted outcome, to drive
    the handler through any failure of its collaborators. *)
Module Scripted.

Record script : Type := {
  on_connect : outcome unit;
  on_findOne : outcome (option object);
  on_create : outcome object
}.

Definition repository : Repository :=
  {| store := script;
     connectDB := fun s => (on_connect s, s);
     User_findOne := fun _ s => (on_findOne s, s);
     User_create := fun _ s => (on_create s, s) |}.

End Scripted.

(** Requests and stores to run the handler on. *)
Module Samples.

(** [StringToNumber] as far as [s < 6] needs it. *)

Definition digit_of (c : ascii) : option Z :=
  let n := nat_of_ascii c in
  if ((48 <=? n) && (n <=? 57))%nat then Some (Z.of_nat (n - 48))
  else if ((97 <=? n) && (n <=? 102))%nat then Some (Z.of_nat (n - 87))
  else if ((65 <=? n) && (n <=? 70))%nat then Some (Z.of_nat (n - 55))
  else None.

Definition is_digit (c : ascii) : bool :=
  let n := nat_of_ascii c in ((48 <=? n) && (n <=? 57))%nat.

Fixpoint radix_digits (radix acc : Z) (s : string) : option Z :=
  match s with
  | EmptyString => Some acc
  | String c r =>
      match digit_of c with
      | Some d =>
          if (d <? radix)%Z then radix_digits radix (radix * acc + d) r else None
      | None => None
      end
  end.

(** The value of a non-empty run of digits. *)
Definition numeral (radix : Z) (s : string) : option Z :=
  match s with
  | EmptyString => None
  | _ => radix_digits radix 0 s
  end.

(** The leading decimal digits of a string, and what follows them. *)
Fixpoint span_digits (s : string) : string * string :=
  match s with
  | EmptyString => (EmptyString, EmptyString)
  | String c r =>
      if is_digit c
      then let (d, rest) := span_digits r in (String c d, rest)
      else (EmptyString, s)
  end.

(** [0x], [0o] and [0b] numerals: the radix and the digits. *)
Definition prefixed (s : string) : option (Z * string) :=
  match s with
  | String z (String c r) =>
      if Ascii.eqb z "0" then
        if Ascii.eqb c "x" || Ascii.eqb c "X" then Some (16%Z, r)
        else if Ascii.eqb c "o" || Ascii.eqb c "O" then Some (8%Z, r)
        else if Ascii.eqb c "b" || Ascii.eqb c "B" then Some (2%Z, r)
        else None
      else None
  | _ => None
  end.

Definition signed (s : string) : bool * string :=
  match s with
  | String c r =>
      if Ascii.eqb c "-" then (true, r)
      else if Ascii.eqb c "+" then (false, r)
      else (false, s)
  | EmptyString => (false, s)
  end.

(** The exponent part, absent or [e] and a signed integer. *)
Definition exponent_part (s : string) : option Z :=
  match s with
  | EmptyString => Some 0%Z
  | String c r =>
      if Ascii.eqb c "e" || Ascii.eqb c "E" then
        let (negative, digits) := signed r in
        option_map (fun e => if negative then (- e)%Z else e) (numeral 10 digits)
      else None
  end.

(** An unsigned decimal literal as [(n, k)], of value [n * 10^k]. *)
Definition unsigned_decimal (u : string) : option (Z * Z) :=
  let (whole, r1) := span_digits u in
  let '(fraction, r2, shaped) :=
    match r1 with
    | String c t =>
        if Ascii.eqb c "."
        then let (f, r) := span_digits t in
             (f, r, negb (String.eqb whole "" && String.eqb f ""))
        else (EmptyString, r1, negb (String.eqb whole ""))
    | EmptyString => (EmptyString, r1, negb (String.eqb whole ""))
    end in
  if shaped then
    match exponent_part r2, radix_digits 10 0 (whole ++ fraction) with
    | Some e, Some n => Some (n, (e - Z.of_nat (String.length fraction))%Z)
    | _, _ => None
    end
  else None.

(** Whether the double nearest to [n * 10^k] is below 6, for [0 <= n]: the
    doubles next to 6 are [6 - 2^-50] and 6, and the midpoint goes to 6. *)
Definition decimal_lt_6 (n k : Z) : bool :=
  if (n =? 0)%Z then true
  else if (0 <? k)%Z then false
  else if (k =? 0)%Z then (n <? 6)%Z
  else if (Z.of_nat (String.length (decimal n)) <=? - k)%Z then true
  else (n * 2 ^ 51 <? (3 * 2 ^ 52 - 1) * 10 ^ (- k))%Z.

Definition string_lt_6 (str : string) : bool :=
  let s := trim str in
  if String.eqb s "" then true
  else
    match prefixed s with
    | Some (radix, digits) =>
        match numeral radix digits with
        | Some v => (v <? 6)%Z
        | None => false
        end
    | None =>
        let (negative, u) := signed s in
        if String.eqb u "Infinity" then negative
        else
          match unsigned_decimal u with
          | Some (n, k) => negative || decimal_lt_6 n k
          | None => false
          end
    end.

(** An engine for the examples. *)
Definition engine : Engine :=
  {| StringToNumber_lt_6 := string_lt_6 |}.

Definition request_of (body : value) : Request := {| request_json := Some body |}.

Definition alice : value :=
  Obj [("name", Str " Alice "); ("email", Str "Alice@Example.com");
       ("password", Str "secret1"); ("phone", Str " 555 0100 ")].


Definition with_role (r : value) : value :=
  Obj [("name", Str "Alice"); ("email", Str "alice@example.com");
       ("password", Str "secret1"); ("role", r)].

Definition alice_record : UserData :=
  {| name := "Alice"; email := "alice@example.com"; password := Str "secret1";
     phone := Some "555 0100"; role := Str "user"; employeeId := None |}.

Definition empty_store : InMemory.state :=
  {| InMemory.online := true; InMemory.users := [] |}.

Definition store_with_alice : InMemory.state :=
  {| InMemory.online := true;
     InMemory.users := [InMemory.document 0 alice_record] |}.

Definition offline_store : InMemory.state :=
  {| InMemory.online := false; InMemory.users := [] |}.

Definition in_memory (s : InMemory.state) : @world InMemory.repository :=
  @Build_world InMemory.repository s [].





Definition blank_name : value :=
  Obj [("name", Str "   "); ("email", Str "alice@example.com");
       ("password", Str "secret1")].




End Samples.

(** ** Properties of the JavaScript operations *)

Section RegexFacts.

Lemma nullable_matches (r : regex) : nullable r = true <-> matches r "".
Proof.
  induction r as [| |p|r1 IH1 r2 IH2|r1 IH1 r2 IH2|r IH]; simpl.
  - split; [discriminate|intros H; inversion H].
  - split; [constructor|reflexivity].
  - split; [discriminate|intros H; inversion H].
  - rewrite andb_true_iff, IH1, IH2. split.
    + intros [H1 H2]. exact (matches_Seq _ _ "" "" H1 H2).
    + intros H. inversion H as [| |r1' r2' s1 s2 H1 H2 Hr Hs| | | |]; subst.
      destruct s1; [|discriminate]. destruct s2; [|discriminate]. auto.
  - rewrite orb_true_iff, IH1, IH2. split.
    + intros [H|H]; [apply matches_Alt_l|apply matches_Alt_r]; exact H.
    + intros H. inversion H; subst; auto.
  - split; [constructor|reflexivity].
Qed.

(** A non-empty match of a star starts with a non-empty match of its body. *)
Lemma matches_Star_head (r : regex) (c : ascii) (s : string) :
  matches (Star r) (String c s) ->
  exists s1 s2, s = s1 ++ s2 /\ matches r (String c s1) /\ matches (Star r) s2.
Proof.
  remember (Star r) as r' eqn:Er. remember (String c s) as s' eqn:Es.
  intros H. revert Er Es.
  induction H as [| | | | | |r0 s1 s2 H1 _ H2 IH2]; try discriminate.
  intros Er Es. injection Er as ->.
  destruct s1 as [|c1 s1].
  - apply IH2; [reflexivity|exact Es].
  - simpl in Es. injection Es as -> <-.
    exists s1, s2. auto.
Qed.

Lemma deriv_matches (r : regex) (c : ascii) (s : string) :
  matches (deriv c r) s <-> matches r (String c s).
Proof.
  revert s.
  induction r as [| |p|r1 IH1 r2 IH2|r1 IH1 r2 IH2|r IH]; intros s; simpl.
  - split; intros H; inversion H.
  - split; intros H; inversion H.
  - split.
    + destruct (p c) eqn:Hp; intros H; inversion H; subst.
      constructor. exact Hp.
    + intros H. inversion H; subst.
      match goal with Hp : p c = true |- _ => rewrite Hp end. constructor.
  - assert (Hseq : matches (Seq (deriv c r1) r2) s ->
                   matches (Seq r1 r2) (String c s)).
    { intros H. inversion H as [| |r1' r2' s1 s2 H1 H2 Hr Hs| | | |]; subst.
      apply IH1 in H1.
      exact (matches_Seq _ _ (String c s1) s2 H1 H2). }
    split.
    + destruct (nullable r1) eqn:Hn; [|exact Hseq].
      intros H. inversion H; subst; [auto|].
      match goal with H2 : matches (deriv c r2) s |- _ => apply IH2 in H2;
        exact (matches_Seq _ _ "" _ (proj1 (nullable_matches r1) Hn) H2) end.
    + intros H. inversion H as [| |r1' r2' s1 s2 H1 H2 Hr Hs| | | |]; subst.
      destruct s1 as [|c1 s1].
      * simpl in Hs. subst s2.
        rewrite (proj2 (nullable_matches r1) H1).
        apply matches_Alt_r, IH2, H2.
      * simpl in Hs. injection Hs as -> <-.
        apply IH1 in H1.
        destruct (nullable r1); [apply matches_Alt_l|]; constructor; assumption.
  - split.
    + intros H. inversion H; subst;
        [apply matches_Alt_l, IH1|apply matches_Alt_r, IH2]; assumption.
    + intros H. inversion H; subst;
        [apply matches_Alt_l, IH1|apply matches_Alt_r, IH2]; assumption.
  - split.
    + intros H. inversion H as [| |r1' r2' s1 s2 H1 H2 Hr Hs| | | |]; subst.
      apply IH in H1.
      exact (matches_Star_cons _ (String c s1) s2 H1 H2).
    + intros H. destruct (matches_Star_head _ _ _ H) as (s1 & s2 & -> & H1 & H2).
      constructor; [apply IH, H1|exact H2].
Qed.

(** The matcher decides the denotation. *)
Lemma regex_test_matches (r : regex) (s : string) :
  regex_test r s = true <-> matches r s.
Proof.
  revert r. induction s as [|c s IH]; intros r; simpl.
  - apply nullable_matches.
  - rewrite IH. apply deriv_matches.
Qed.

Lemma matches_Star_Class (p : ascii -> bool) (s : string) :
  matches (Star (Class p)) s <-> all_chars p s = true.
Proof.
  split.
  - remember (Star (Class p)) as r eqn:Er. intros H. revert Er.
    induction H as [| | | | | |r0 s1 s2 H1 _ H2 IH2]; try discriminate.
    + reflexivity.
    + intros Er. injection Er as ->. inversion H1; subst. simpl.
      apply andb_true_iff. split; [assumption|apply IH2; reflexivity].
  - induction s as [|c s IH]; simpl; [constructor|].
    intros H. apply andb_true_iff in H. destruct H as [Hc Hs].
    exact (matches_Star_cons _ (String c "") s (matches_Class p c Hc) (IH Hs)).
Qed.

Lemma matches_Plus_Class (p : ascii -> bool) (s : string) :
  matches (Plus (Class p)) s <-> s <> "" /\ all_chars p s = true.
Proof.
  unfold Plus. split.
  - intros H. inversion H as [| |r1' r2' s1 s2 H1 H2 Hr Hs| | | |]; subst.
    inversion H1; subst. simpl. split; [discriminate|].
    apply andb_true_iff. split; [assumption|apply matches_Star_Class, H2].
  - intros [Hne H]. destruct s as [|c s]; [contradiction|].
    simpl in H. apply andb_true_iff in H. destruct H as [Hc Hs].
    exact (matches_Seq _ _ (String c "") s (matches_Class p c Hc)
             (proj2 (matches_Star_Class p s) Hs)).
Qed.

Lemma matches_Chr (c : ascii) (s : string) :
  matches (Chr c) s <-> s = String c "".
Proof.
  unfold Chr. split.
  - intros H. inversion H; subst.
    match goal with E : Ascii.eqb c _ = true |- _ => apply Ascii.eqb_eq in E; subst end.
    reflexivity.
  - intros ->. constructor. apply Ascii.eqb_refl.
Qed.

(** The pattern of the handler accepts exactly the strings of the shape
    [local@domain.tld]. *)
Lemma emailRegex_shape (s : string) :
  regex_test emailRegex s = true <-> local_at_domain_tld s.
Proof.
  rewrite regex_test_matches. unfold emailRegex, local_at_domain_tld. split.
  - intros H.
    inversion H as [| |ra rb l s1 Hl H1 Era Es| | | |]; subst.
    inversion H1 as [| |ra rb a s2 Ha H2 Era Es| | | |]; subst.
    inversion H2 as [| |ra rb d s3 Hd H3 Era Es| | | |]; subst.
    inversion H3 as [| |ra rb o t Ho Ht Era Es| | | |]; subst.
    apply matches_Plus_Class in Hl, Hd, Ht.
    apply matches_Chr in Ha, Ho. subst a o.
    exists l, d, t. intuition.
  - intros (l & d & t & -> & Hl & Hd & Ht & Al & Ad & At).
    repeat apply matches_Seq;
      first [apply matches_Chr; reflexivity
            |apply matches_Plus_Class; split; assumption].
Qed.

End RegexFacts.

Section StringFacts.

Lemma has_key_delete (k : string) (o : object) :
  has_key k (delete k o) = false.
Proof.
  induction o as [|[k' v] o IH]; simpl; [reflexivity|].
  destruct (String.eqb k k') eqn:E; [exact IH|].
  simpl. rewrite E. exact IH.
Qed.

Lemma lookup_delete_other (k k' : string) (o : object) :
  String.eqb k' k = false -> lookup k' (delete k o) = lookup k' o.
Proof.
  intros Hne. induction o as [|[k0 v] o IH]; simpl; [reflexivity|].
  destruct (String.eqb k k0) eqn:E.
  - apply String.eqb_eq in E. subst k0. rewrite Hne. exact IH.
  - simpl. destruct (String.eqb k' k0); [reflexivity|exact IH].
Qed.

Lemma trimStart_starts (s : string) : starts_with_space (trimStart s) = false.
Proof.
  induction s as [|c r IH]; simpl; [reflexivity|].
  destruct (is_space c) eqn:E; [exact IH|]. simpl. exact E.
Qed.

Lemma trimEnd_ends (s : string) : ends_with_space (trimEnd s) = false.
Proof.
  induction s as [|c r IH]; simpl; [reflexivity|].
  destruct (trimEnd r) as [|c' r'] eqn:E.
  - destruct (is_space c) eqn:Hc; simpl; [reflexivity|exact Hc].
  - exact IH.
Qed.

(** [trimEnd] keeps the first character of a string that does not start
    with white space. *)
Lemma trimEnd_starts (s : string) :
  starts_with_space s = false -> starts_with_space (trimEnd s) = false.
Proof.
  destruct s as [|c r]; simpl; [reflexivity|].
  intros Hc. destruct (trimEnd r); [rewrite Hc|]; simpl; assumption.
Qed.

Lemma trim_trimmed (s : string) : trimmed (trim s) = true.
Proof.
  unfold trimmed, trim.
  rewrite trimEnd_ends, (trimEnd_starts _ (trimStart_starts s)). reflexivity.
Qed.

Lemma trimStart_decompose (s : string) :
  exists pre, s = pre ++ trimStart s /\ all_chars is_space pre = true.
Proof.
  induction s as [|c r (pre & IH & Hpre)]; simpl; [exists ""; auto|].
  destruct (is_space c) eqn:E; [|exists ""; auto].
  exists (String c pre). simpl. rewrite E, Hpre, <- IH. auto.
Qed.

Lemma trimEnd_decompose (s : string) :
  exists post, s = trimEnd s ++ post /\ all_chars is_space post = true.
Proof.
  induction s as [|c r (post & IH & Hpost)]; simpl; [exists ""; auto|].
  destruct (trimEnd r) as [|c' r'] eqn:Er.
  - simpl in IH. subst post.
    destruct (is_space c) eqn:E.
    + exists (String c r). simpl. rewrite E, Hpost. auto.
    + exists r. auto.
  - exists post. simpl. rewrite IH at 1. auto.
Qed.

(** [trim] removes white space at both ends and nothing else. *)
Lemma trim_decompose (s : string) :
  exists pre post,
    s = pre ++ trim s ++ post
    /\ all_chars is_space pre = true /\ all_chars is_space post = true.
Proof.
  destruct (trimStart_decompose s) as (pre & Hs & Hpre).
  destruct (trimEnd_decompose (trimStart s)) as (post & Ht & Hpost).
  exists pre, post. unfold trim. rewrite <- Ht, <- Hs. auto.
Qed.

Lemma lower_char_idempotent (c : ascii) : lower_char (lower_char c) = lower_char c.
Proof.
  destruct c as [[] [] [] [] [] [] [] []]; reflexivity.
Qed.

Lemma toLowerCase_lower_cased (s : string) : lower_cased (toLowerCase s) = true.
Proof.
  induction s as [|c r IH]; simpl; [reflexivity|].
  unfold is_upper. rewrite lower_char_idempotent, Ascii.eqb_refl, IH. reflexivity.
Qed.

Lemma trimStart_lower_cased (s : string) :
  lower_cased s = true -> lower_cased (trimStart s) = true.
Proof.
  induction s as [|c r IH]; simpl; [reflexivity|].
  intros H. destruct (is_space c); [|exact H].
  apply andb_true_iff in H. apply IH, H.
Qed.

Lemma trimEnd_lower_cased (s : string) :
  lower_cased s = true -> lower_cased (trimEnd s) = true.
Proof.
  induction s as [|c r IH]; simpl; [reflexivity|].
  intros H. apply andb_true_iff in H. destruct H as [Hc Hr].
  specialize (IH Hr). destruct (trimEnd r) as [|c' r'].
  - destruct (is_space c); simpl; [reflexivity|]. rewrite Hc. reflexivity.
  - change (negb (is_upper c) && lower_cased (String c' r') = true).
    rewrite Hc, IH. reflexivity.
Qed.

Lemma trim_toLowerCase_lower_cased (s : string) :
  lower_cased (trim (toLowerCase s)) = true.
Proof.
  apply trimEnd_lower_cased, trimStart_lower_cased, toLowerCase_lower_cased.
Qed.

End StringFacts.

(** ** Properties of the handler *)

Section Properties.

Context {E : Engine} {R : Repository}.

(** *** The handler through its validation prefix *)

Lemma POST_try_validate (request : Request) (w : world) :
  POST_try request w =
  match validate request with
  | Rejected response => (Return response, w)
  | Faulted e => (Throw e, w)
  | Accepted body name email password phone role =>
      try_catch (POST_database body name email password phone role)
                (fun error => lift (catch_database error)) w
  end.
Proof.
  unfold Signup.POST_try, Signup.validate.
  destruct (request_json request) as [body|]; [|reflexivity].
  unfold bind, lift.
  destruct (destructure body) as [[[[[name email] password] phone] role]|e];
    [|reflexivity].
  destruct (negb (truthy name) || negb (truthy email) || negb (truthy password));
    [reflexivity|].
  destruct (emailRegex_test email) as [matches|e]; [|reflexivity].
  destruct (negb matches); [reflexivity|].
  destruct (member_length password) as [len|e]; simpl; [|reflexivity].
  destruct (lt_6 len) as [[]|e]; reflexivity.
Qed.

Lemma POST_rejected (request : Request) (w : world) (response : Response) :
  validate request = Rejected response -> POST request w = (response, w).
Proof.
  intros H. unfold Signup.POST. rewrite POST_try_validate, H. reflexivity.
Qed.

Lemma POST_faulted (request : Request) (w : world) (e : thrown) :
  validate request = Faulted e ->
  POST request w = (handleError "An unexpected error occurred" 500, w).
Proof.
  intros H. unfold Signup.POST. rewrite POST_try_validate, H. reflexivity.
Qed.

Lemma POST_accepted (request : Request) (w : world)
    (body name email password phone role : value) :
  validate request = Accepted body name email password phone role ->
  POST request w =
  match POST_database body name email password phone role w with
  | (Return response, w') => (response, w')
  | (Throw error, w') =>
      match catch_database error with
      | Return response => (response, w')
      | Throw _ => (handleError "An unexpected error occurred" 500, w')
      end
  end.
Proof.
  intros H. unfold Signup.POST. rewrite POST_try_validate, H.
  unfold try_catch, lift.
  destruct (POST_database body name email password phone role w) as [[r|e] w'];
    [reflexivity|].
  destruct (catch_database e); reflexivity.
Qed.

(** The fields an accepted request enters the database block with. *)
Lemma validate_accepted_fields (request : Request)
    (body name email password phone role : value) :
  validate request = Accepted body name email password phone role ->
  request_json request = Some body
  /\ name = member body "name" /\ email = member body "email"
  /\ password = member body "password" /\ phone = member body "phone"
  /\ role = match member body "role" with Undefined => Str "user" | v => v end.
Proof.
  unfold Signup.validate.
  destruct (request_json request) as [body0|]; [|discriminate].
  destruct (destructure body0) as [[[[[n e] p] ph] r]|err] eqn:D; [|discriminate].
  destruct (negb (truthy n) || negb (truthy e) || negb (truthy p)); [discriminate|].
  destruct (emailRegex_test e) as [m|]; [|discriminate].
  destruct (negb m); [discriminate|].
  destruct (obind (member_length p) lt_6) as [[]|]; try discriminate.
  intros H. injection H as -> -> -> -> -> ->.
  destruct body; simpl in D; try discriminate;
    injection D as <- <- <- <- <-; repeat split; reflexivity.
Qed.

(** *** The database block *)

Lemma skipn_length_app {A} (l m : list A) : skipn (List.length l) (l ++ m) = m.
Proof. induction l as [|a l IH]; simpl; [reflexivity|exact IH]. Qed.

(** The database block, operation by operation. *)
Lemma POST_database_unfold (body name email password phone role : value) (w : world) :
  POST_database body name email password phone role w =
  match connectDB (db w) with
  | (Throw e, s1) => (Throw e, {| db := s1; calls := calls w ++ [Connect] |})
  | (Return _, s1) =>
      match User_findOne email s1 with
      | (Throw e, s2) =>
          (Throw e, {| db := s2; calls := calls w ++ [Connect; FindOne email] |})
      | (Return (Some _), s2) =>
          (Return (handleError "User with this email already exists" 400),
           {| db := s2; calls := calls w ++ [Connect; FindOne email] |})
      | (Return None, s2) =>
          let w2 := {| db := s2; calls := calls w ++ [Connect; FindOne email] |} in
          match call_string_method trim "name" "trim" name with
          | Throw e => (Throw e, w2)
          | Return name' =>
              match call_string_method toLowerCase "email" "toLowerCase" email with
              | Throw e => (Throw e, w2)
              | Return lower =>
                  match optional_trim "phone" phone with
                  | Throw e => (Throw e, w2)
                  | Return phone' =>
                      let userData :=
                        {| name := name'; email := trim lower; password := password;
                           phone := phone'; role := role;
                           employeeId :=
                             if truthy (member body "employeeId")
                             then Some (member body "employeeId") else None |} in
                      let calls3 :=
                        (calls w ++ [Connect; FindOne email; Create userData])%list in
                      match User_create userData s2 with
                      | (Throw e, s3) => (Throw e, {| db := s3; calls := calls3 |})
                      | (Return userObject, s3) =>
                          (Return
                             {| status := 201;
                                json := Obj [("user", Obj (delete "password" userObject));
                                             ("message", Str "User created successfully");
                                             ("success", Bool true)] |},
                           {| db := s3; calls := calls3 |})
                      end
                  end
              end
          end
      end
  end.
Proof.
  unfold POST_database, bind, on_repository, ret, lift.
  destruct (connectDB (db w)) as [[u|e] s1]; simpl; [|reflexivity].
  destruct (User_findOne email s1) as [[[existing|]|e] s2]; simpl;
    rewrite <- app_assoc; simpl; try reflexivity.
  destruct (call_string_method trim "name" "trim" name) as [name'|e];
    [|reflexivity].
  destruct (call_string_method toLowerCase "email" "toLowerCase" email)
    as [lower|e]; [|reflexivity].
  destruct (optional_trim "phone" phone) as [phone'|e]; [|reflexivity].
  simpl.
  destruct (User_create _ s2) as [[userObject|e] s3]; simpl;
    rewrite <- app_assoc; reflexivity.
Qed.

(** A failure of any of the three repository operations leaves the
    database block as a throw of that very error. *)
Lemma connectDB_failure (body name email password phone role : value) (w : world)
    (error : thrown) (s1 : store) :
  connectDB (db w) = (Throw error, s1) ->
  POST_database body name email password phone role w
  = (Throw error, {| db := s1; calls := calls w ++ [Connect] |}).
Proof. intros H. rewrite POST_database_unfold, H. reflexivity. Qed.

Lemma findOne_failure (body name email password phone role : value) (w : world)
    (error : thrown) (s1 s2 : store) :
  connectDB (db w) = (Return tt, s1) ->
  User_findOne email s1 = (Throw error, s2) ->
  POST_database body name email password phone role w
  = (Throw error, {| db := s2; calls := calls w ++ [Connect; FindOne email] |}).
Proof. intros H1 H2. rewrite POST_database_unfold, H1, H2. reflexivity. Qed.

Lemma create_failure (body password phone role : value) (n e : string)
    (phone' : option string) (w : world) (error : thrown) (s1 s2 s3 : store) :
  connectDB (db w) = (Return tt, s1) ->
  User_findOne (Str e) s1 = (Return None, s2) ->
  optional_trim "phone" phone = Return phone' ->
  let userData :=
    {| name := trim n; email := trim (toLowerCase e); password := password;
       phone := phone'; role := role;
       employeeId := if truthy (member body "employeeId")
                     then Some (member body "employeeId") else None |} in
  User_create userData s2 = (Throw error, s3) ->
  POST_database body (Str n) (Str e) password phone role w
  = (Throw error,
     {| db := s3;
        calls := calls w ++ [Connect; FindOne (Str e); Create userData] |}).
Proof.
  intros H1 H2 H3 userData H4.
  rewrite POST_database_unfold, H1, H2. unfold call_string_method.
  rewrite H3. cbv zeta. fold userData. rewrite H4. reflexivity.
Qed.

(** *** Validation of string fields

    The decision table of the validator on a body whose [name], [email] and
    [password] are strings: the first violated rule decides. *)
Lemma validate_strings (request : Request) (body : value) (n e p : string) :
  request_json request = Some body ->
  member body "name" = Str n ->
  member body "email" = Str e ->
  member body "password" = Str p ->
  validate request =
  if String.eqb n "" || String.eqb e "" || String.eqb p ""
  then Rejected (handleError "Name, email, and password are required" 400)
  else if negb (regex_test emailRegex e)
  then Rejected (handleError "Please enter a valid email address" 400)
  else if (Z.of_nat (String.length p) <? 6)%Z
  then Rejected (handleError "Password must be at least 6 characters long" 400)
  else Accepted body (Str n) (Str e) (Str p) (member body "phone")
         match member body "role" with Undefined => Str "user" | v => v end.
Proof.
  intros Hjson Hn He Hp. unfold validate. rewrite Hjson.
  destruct body; try discriminate Hn.
  unfold destructure. rewrite Hn, He, Hp.
  unfold truthy. rewrite !negb_involutive.
  destruct (String.eqb n "" || String.eqb e "" || String.eqb p ""); [reflexivity|].
  unfold emailRegex_test, ToString, obind.
  destruct (negb (regex_test emailRegex e)); [reflexivity|].
  unfold member_length, lt_6.
  destruct (Z.of_nat (String.length p) <? 6)%Z; reflexivity.
Qed.

(** *** The shape of every response *)

Lemma validate_rejected_400 (request : Request) (response : Response) :
  validate request = Rejected response ->
  exists message, response = handleError message 400.
Proof.
  unfold validate.
  destruct (request_json request) as [body|];
    [|intros H; injection H as <-; eexists; reflexivity].
  destruct (destructure body) as [[[[[n e] p] ph] r]|err]; [|discriminate].
  destruct (negb (truthy n) || negb (truthy e) || negb (truthy p));
    [intros H; injection H as <-; eexists; reflexivity|].
  destruct (emailRegex_test e) as [m|]; [|discriminate].
  destruct (negb m); [intros H; injection H as <-; eexists; reflexivity|].
  destruct (obind (member_length p) lt_6) as [[]|]; try discriminate.
  intros H; injection H as <-; eexists; reflexivity.
Qed.

Lemma catch_database_cases (error : thrown) :
  (exists message status,
      catch_database error = Return (handleError message status)
      /\ (status = 400 \/ status = 500)%Z)
  \/ (exists e, catch_database error = Throw e).
Proof.
  unfold catch_database.
  destruct (is_duplicate_key error).
  - destruct (Object_keys (keyPattern_of error)) as [keys|e]; simpl.
    + left. do 2 eexists. split; [reflexivity|left; reflexivity].
    + right. eexists. reflexivity.
  - destruct (is_ValidationError error).
    + destruct (validation_messages error) as [msgs|e]; simpl.
      * left. do 2 eexists. split; [reflexivity|left; reflexivity].
      * right. eexists. reflexivity.
    + left. do 2 eexists. split; [reflexivity|right; reflexivity].
Qed.

Lemma POST_database_cases (body name email password phone role : value) (w : world) :
  fst (POST_database body name email password phone role w)
  = Return (handleError "User with this email already exists" 400)
  \/ (exists userObject,
        fst (POST_database body name email password phone role w)
        = Return {| status := 201;
                    json := Obj [("user", Obj (delete "password" userObject));
                                 ("message", Str "User created successfully");
                                 ("success", Bool true)] |})
  \/ (exists e, fst (POST_database body name email password phone role w) = Throw e).
Proof.
  rewrite POST_database_unfold.
  destruct (connectDB (db w)) as [[u|e] s1]; [|right; right; eexists; reflexivity].
  destruct (User_findOne email s1) as [[[existing|]|e] s2];
    [left; reflexivity| |right; right; eexists; reflexivity].
  destruct (call_string_method trim "name" "trim" name) as [name'|e];
    [|right; right; eexists; reflexivity].
  destruct (call_string_method toLowerCase "email" "toLowerCase" email)
    as [lower|e]; [|right; right; eexists; reflexivity].
  destruct (optional_trim "phone" phone) as [phone'|e];
    [|right; right; eexists; reflexivity].
  cbv zeta.
  destruct (User_create _ s2) as [[userObject|e] s3];
    [right; left; eexists; reflexivity|right; right; eexists; reflexivity].
Qed.

(** Every request is answered, with an error of status 400 or 500 or with
    the 201 of a created user. *)
Lemma POST_response_cases (request : Request) (w : world) :
  (exists message status,
      fst (POST request w) = handleError message status
      /\ (status = 400 \/ status = 500)%Z)
  \/ (exists userObject,
        fst (POST request w)
        = {| status := 201;
             json := Obj [("user", Obj (delete "password" userObject));
                          ("message", Str "User created successfully");
                          ("success", Bool true)] |}).
Proof.
  destruct (validate request) as [response|e|body name email password phone role]
    eqn:Hv.
  - rewrite (POST_rejected _ w _ Hv).
    destruct (validate_rejected_400 _ _ Hv) as [message ->].
    left. do 2 eexists. split; [reflexivity|left; reflexivity].
  - rewrite (POST_faulted _ w _ Hv).
    left. do 2 eexists. split; [reflexivity|right; reflexivity].
  - rewrite (POST_accepted _ w _ _ _ _ _ _ Hv).
    destruct (POST_database_cases body name email password phone role w)
      as [H|[[u H]|[e H]]];
      destruct (POST_database body name email password phone role w) as [o w'];
      simpl in H; subst o.
    + left. do 2 eexists. split; [reflexivity|left; reflexivity].
    + right. eexists. reflexivity.
    + destruct (catch_database_cases e) as [(m & st & -> & Hst)|[e' ->]].
      * left. do 2 eexists. split; [reflexivity|exact Hst].
      * left. do 2 eexists. split; [reflexivity|right; reflexivity].
Qed.

(** *** The calls of a request *)

Lemma new_calls_not_accepted (request : Request) (w : world) :
  (forall body name email password phone role,
      validate request <> Accepted body name email password phone role) ->
  POST request w
  = (match validate request with
     | Rejected response => response
     | _ => handleError "An unexpected error occurred" 500
     end, w)
  /\ new_calls request w = [].
Proof.
  intros Hna.
  assert (HP : POST request w
               = (match validate request with
                  | Rejected response => response
                  | _ => handleError "An unexpected error occurred" 500
                  end, w)).
  { destruct (validate request) as [response|e|body name email password phone role]
      eqn:Hv.
    - apply POST_rejected, Hv.
    - apply (POST_faulted _ _ _ Hv).
    - exfalso. exact (Hna _ _ _ _ _ _ eq_refl). }
  split; [exact HP|].
  unfold new_calls. rewrite HP. simpl. apply skipn_all.
Qed.

(** A record reaches [User.create] only from an accepted request with
    string [name] and [email], and it is the record below. *)
Lemma Create_call_inv (request : Request) (w : world) (userData : UserData) :
  In (Create userData) (new_calls request w) ->
  exists body n e password phone role phone',
    validate request = Accepted body (Str n) (Str e) password phone role
    /\ optional_trim "phone" phone = Return phone'
    /\ userData
       = {| name := trim n; email := trim (toLowerCase e); password := password;
            phone := phone'; role := role;
            employeeId := if truthy (member body "employeeId")
                          then Some (member body "employeeId") else None |}.
Proof.
  destruct (validate request) as [response|e|body name email password phone role]
    eqn:Hv.
  - destruct (new_calls_not_accepted request w) as [_ ->];
      [rewrite Hv; discriminate|intros []].
  - destruct (new_calls_not_accepted request w) as [_ ->];
      [rewrite Hv; discriminate|intros []].
  - unfold new_calls. rewrite (POST_accepted _ w _ _ _ _ _ _ Hv).
    assert (Hsnd : forall (o : outcome Response) (w' : world),
               snd (match o with
                    | Return response => (response, w')
                    | Throw error =>
                        match catch_database error with
                        | Return response => (response, w')
                        | Throw _ => (handleError "An unexpected error occurred" 500, w')
                        end
                    end) = w').
    { intros [r|err] w'; [reflexivity|]. destruct (catch_database err); reflexivity. }
    destruct (POST_database body name email password phone role w) as [o w'] eqn:HD.
    rewrite Hsnd. clear Hsnd.
    rewrite POST_database_unfold in HD.
    destruct (connectDB (db w)) as [[u|err] s1];
      [|injection HD as _ <-; simpl; rewrite skipn_length_app;
        intros [H|[]]; discriminate H].
    destruct (User_findOne email s1) as [[[existing|]|err] s2];
      try (injection HD as _ <-; simpl; rewrite skipn_length_app;
           intros [H|[H|[]]]; discriminate H).
    destruct name as [| | | |n| |];
      try (injection HD as _ <-; simpl; rewrite skipn_length_app;
           intros [H|[H|[]]]; discriminate H).
    destruct email as [| | | |e| |];
      try (injection HD as _ <-; simpl; rewrite skipn_length_app;
           intros [H|[H|[]]]; discriminate H).
    unfold call_string_method in HD.
    destruct (optional_trim "phone" phone) as [phone'|err] eqn:Hph;
      [|injection HD as _ <-; simpl; rewrite skipn_length_app;
        intros [H|[H|[]]]; discriminate H].
    cbv zeta in HD.
    assert (Hcalls : calls w'
                     = (calls w ++
                        [Connect; FindOne (Str e);
                         Create {| name := trim n; email := trim (toLowerCase e);
                                   password := password; phone := phone'; role := role;
                                   employeeId :=
                                     if truthy (member body "employeeId")
                                     then Some (member body "employeeId")
                                     else None |}])%list).
    { destruct (User_create _ s2) as [[userObject|err] s3];
        injection HD as _ <-; reflexivity. }
    rewrite Hcalls, skipn_length_app.
    intros [H|[H|[H|[]]]]; try discriminate H.
    injection H as <-.
    exists body, n, e, password, phone, role, phone'.
    repeat split. exact Hph.
Qed.

(** *** The signup flow *)


(** C2.  A request whose name, email and password are strings, the name not
    empty, the email matching the pattern, the password of six characters
    or more, and whose phone is absent or a string, is answered -- when the
    store is reached, holds no record for the email and creates the one
    handed to it -- with status 201 and the body
    [{user, message: "User created successfully", success: true}], where
    [user] is the created record with its [password] deleted. *)
Theorem valid_unique_signup_created (request : Request) (w : world)
    (body : value) (n e p : string) (phone' : option string)
    (s1 s2 s3 : store) (userObject : object) :
  request_json request = Some body ->
  member body "name" = Str n -> n <> "" ->
  member body "email" = Str e -> regex_test emailRegex e = true ->
  member body "password" = Str p -> 6 <= String.length p ->
  optional_trim "phone" (member body "phone") = Return phone' ->
  connectDB (db w) = (Return tt, s1) ->
  User_findOne (Str e) s1 = (Return None, s2) ->
  let userData :=
    {| name := trim n; email := trim (toLowerCase e); password := Str p;
       phone := phone';
       role := match member body "role" with Undefined => Str "user" | v => v end;
       employeeId := if truthy (member body "employeeId")
                     then Some (member body "employeeId") else None |} in
  User_create userData s2 = (Return userObject, s3) ->
  POST request w
  = ({| status := 201;
        json := Obj [("user", Obj (delete "password" userObject));
                     ("message", Str "User created successfully");
                     ("success", Bool true)] |},
     {| db := s3;
        calls := calls w ++ [Connect; FindOne (Str e); Create userData] |})
  /\ has_key "password" (delete "password" userObject) = false.
Proof.
  intros Hjson Hn Hn0 He Hre Hp Hlen Hph Hc Hf userData Hcr.
  split; [|apply has_key_delete].
  assert (Hv : validate request
               = Accepted body (Str n) (Str e) (Str p) (member body "phone")
                   match member body "role" with Undefined => Str "user" | v => v end).
  { rewrite (validate_strings _ _ _ _ _ Hjson Hn He Hp).
    assert (En : String.eqb n "" = false) by (apply String.eqb_neq; exact Hn0).
    assert (Ee : String.eqb e "" = false).
    { apply String.eqb_neq. intros ->. discriminate Hre. }
    assert (Ep : String.eqb p "" = false).
    { apply String.eqb_neq. intros ->. simpl in Hlen. lia. }
    rewrite En, Ee, Ep, Hre. simpl.
    assert (El : (Z.of_nat (String.length p) <? 6)%Z = false)
      by (apply Z.ltb_ge; lia).
    rewrite El. reflexivity. }
  rewrite (POST_accepted _ _ _ _ _ _ _ _ Hv), POST_database_unfold, Hc, Hf.
  unfold call_string_method. rewrite Hph. cbv zeta.
  fold userData. rewrite Hcr. reflexivity.
Qed.

(** C3.  No response carries a [password] property: an error response is
    [{message}] alone, and the [user] of a 201 response has had its
    [password] deleted. *)
Theorem password_never_in_response (request : Request) (w : world) :
  password_present (json (fst (POST request w))) = false.
Proof.
  destruct (POST_response_cases request w) as [(m & st & -> & _)|[u ->]].
  - reflexivity.
  - simpl. apply has_key_delete.
Qed.

(** C4.  A body that parses to [null] is not answered with a 400: the
    destructuring of line 34 throws, the outer [catch] answers 500 with
    "An unexpected error occurred".  The sibling body [{}] is answered 400
    with the missing-field message.  Neither reaches the repository. *)
Theorem null_body_answered_500 (w : world) :
  POST {| request_json := Some Null |} w
  = (handleError "An unexpected error occurred" 500, w)
  /\ POST {| request_json := Some (Obj []) |} w
     = (handleError "Name, email, and password are required" 400, w).
Proof.
  split; [apply (POST_faulted _ _ (TypeError
            "Cannot destructure property 'name' of 'body' as it is null."))
         |apply POST_rejected]; reflexivity.
Qed.





(** C9.  A record handed to [User.create] comes from a body with string
    [name] and [email]; its name is the trimmed name, its email the
    lower-cased then trimmed email, its phone the trimmed phone when the
    body has a string phone and absent otherwise: none of them starts or
    ends with white space and the email has no upper-case letter left.
    A request that validation does not accept leaves the repository
    untouched. *)
Theorem created_record_normalized (request : Request) (w : world) :
  (forall userData, In (Create userData) (new_calls request w) ->
     exists body n e,
       request_json request = Some body
       /\ member body "name" = Str n /\ name userData = trim n
       /\ member body "email" = Str e /\ email userData = trim (toLowerCase e)
       /\ phone userData = match member body "phone" with
                           | Str p => Some (trim p)
                           | _ => None
                           end
       /\ trimmed (name userData) = true
       /\ trimmed (email userData) = true
       /\ lower_cased (email userData) = true
       /\ (forall p, phone userData = Some p -> trimmed p = true))
  /\ ((forall body name email password phone role,
         validate request <> Accepted body name email password phone role) ->
      snd (POST request w) = w /\ new_calls request w = []).
Proof.
  split.
  - intros userData Hin.
    destruct (Create_call_inv _ _ _ Hin)
      as (body & n & e & password & phone & role & phone' & Hv & Hph & ->).
    destruct (validate_accepted_fields _ _ _ _ _ _ _ Hv)
      as (Hjson & Hn & He & _ & -> & _).
    exists body, n, e. simpl.
    assert (Hphone : phone' = match member body "phone" with
                              | Str p => Some (trim p)
                              | _ => None
                              end).
    { destruct (member body "phone"); simpl in Hph;
        try discriminate Hph; injection Hph as <-; reflexivity. }
    repeat split; auto using trim_trimmed, trim_toLowerCase_lower_cased.
    intros p Hp. rewrite Hphone in Hp.
    destruct (member body "phone"); try discriminate Hp.
    injection Hp as <-. apply trim_trimmed.
  - intros Hna. destruct (new_calls_not_accepted request w Hna) as [HP HN].
    rewrite HP. split; [reflexivity|exact HN].
Qed.


End Properties.

(** ** Further properties of the handler *)

Section StringNormalForms.

Lemma is_space_lower_char (c : ascii) : is_space (lower_char c) = is_space c.
Proof.
  destruct c as [[] [] [] [] [] [] [] []]; reflexivity.
Qed.

Lemma toLowerCase_no_space (s : string) : no_space (toLowerCase s) = no_space s.
Proof.
  unfold no_space. induction s as [|c r IH]; simpl; [reflexivity|].
  rewrite is_space_lower_char, IH. reflexivity.
Qed.

Lemma toLowerCase_idempotent (s : string) :
  toLowerCase (toLowerCase s) = toLowerCase s.
Proof.
  induction s as [|c r IH]; simpl; [reflexivity|].
  rewrite lower_char_idempotent, IH. reflexivity.
Qed.

Lemma trimEnd_fixed (s : string) : ends_with_space s = false -> trimEnd s = s.
Proof.
  induction s as [|c r IH]; simpl; [reflexivity|].
  destruct r as [|c' r'].
  - intros ->. reflexivity.
  - intros H. rewrite (IH H). reflexivity.
Qed.

Lemma trimStart_fixed (s : string) : starts_with_space s = false -> trimStart s = s.
Proof.
  destruct s as [|c r]; simpl; [reflexivity|]. intros ->. reflexivity.
Qed.

(** [trim] leaves a string alone when it neither starts nor ends with white
    space. *)
Lemma trim_fixed (s : string) : trimmed s = true -> trim s = s.
Proof.
  unfold trimmed, trim. intros H. apply andb_true_iff in H. destruct H as [H1 H2].
  apply negb_true_iff in H1, H2.
  rewrite (trimStart_fixed _ H1). apply trimEnd_fixed, H2.
Qed.

Lemma no_space_trimmed (s : string) : no_space s = true -> trimmed s = true.
Proof.
  unfold trimmed, no_space. intros H. apply andb_true_iff. split.
  - destruct s as [|c r]; simpl in *; [reflexivity|].
    apply andb_true_iff in H. apply H.
  - induction s as [|c r IH]; simpl in *; [reflexivity|].
    apply andb_true_iff in H. destruct H as [Hc Hr].
    destruct r as [|c' r']; [exact Hc|apply IH, Hr].
Qed.

Lemma trimStart_toLowerCase (s : string) :
  trimStart (toLowerCase s) = toLowerCase (trimStart s).
Proof.
  induction s as [|c r IH]; simpl; [reflexivity|].
  rewrite is_space_lower_char. destruct (is_space c); [exact IH|reflexivity].
Qed.

Lemma trimEnd_toLowerCase (s : string) :
  trimEnd (toLowerCase s) = toLowerCase (trimEnd s).
Proof.
  induction s as [|c r IH]; simpl; [reflexivity|].
  rewrite IH, is_space_lower_char.
  destruct (trimEnd r); simpl; [destruct (is_space c)|]; reflexivity.
Qed.

Lemma trim_toLowerCase (s : string) : trim (toLowerCase s) = toLowerCase (trim s).
Proof.
  unfold trim. rewrite trimStart_toLowerCase, trimEnd_toLowerCase. reflexivity.
Qed.

Lemma trim_all_space (s : string) : all_chars is_space s = true -> trim s = "".
Proof.
  unfold trim. induction s as [|c r IH]; simpl; [reflexivity|].
  intros H. apply andb_true_iff in H. destruct H as [-> Hr]. exact (IH Hr).
Qed.

Lemma all_chars_app (p : ascii -> bool) (s t : string) :
  all_chars p (s ++ t) = all_chars p s && all_chars p t.
Proof.
  induction s as [|c r IH]; simpl; [reflexivity|].
  rewrite IH. apply andb_assoc.
Qed.

Lemma count_char_app (c : ascii) (s t : string) :
  count_char c (s ++ t) = count_char c s + count_char c t.
Proof.
  induction s as [|c' r IH]; simpl; [reflexivity|]. rewrite IH. lia.
Qed.

Lemma string_length_app (s t : string) :
  String.length (s ++ t) = String.length s + String.length t.
Proof.
  induction s as [|c r IH]; simpl; [reflexivity|]. rewrite IH. reflexivity.
Qed.

Lemma not_space_at_run (s : string) :
  all_chars not_space_at s = true ->
  no_space s = true /\ count_char "@" s = 0.
Proof.
  unfold no_space. induction s as [|c r IH]; cbn [all_chars count_char]; [auto|].
  intros H. apply andb_true_iff in H. destruct H as [Hc Hr].
  destruct (IH Hr) as [H1 H2].
  unfold not_space_at in Hc. apply andb_true_iff in Hc. destruct Hc as [Hs Ha].
  rewrite Hs, H1, H2. apply negb_true_iff in Ha.
  rewrite Ascii.eqb_sym in Ha. rewrite Ha. auto.
Qed.

(** What the shape [local@domain.tld] entails. *)
Lemma local_at_domain_tld_facts (s : string) :
  local_at_domain_tld s ->
  no_space s = true /\ count_char "@" s = 1 /\ 5 <= String.length s.
Proof.
  intros (l & d & t & -> & Hl & Hd & Ht & Al & Ad & At).
  destruct (not_space_at_run _ Al) as [Sl Cl].
  destruct (not_space_at_run _ Ad) as [Sd Cd].
  destruct (not_space_at_run _ At) as [St Ct].
  unfold no_space in *.
  rewrite !all_chars_app, !count_char_app, !string_length_app, Sl, Sd, St, Cl, Cd, Ct.
  simpl. repeat split; try reflexivity.
  destruct l; [contradiction|]. destruct d; [contradiction|].
  destruct t; [contradiction|]. simpl. lia.
Qed.

End StringNormalForms.

Section Coverage.

Context {E : Engine} {R : Repository}.


(** What the three checks have established of an accepted request. *)
Lemma validate_accepted_checks (request : Request)
    (body name email password phone role : value) :
  validate request = Accepted body name email password phone role ->
  truthy name = true /\ truthy email = true /\ truthy password = true
  /\ emailRegex_test email = Return true
  /\ obind (member_length password) lt_6 = Return false.
Proof.
  unfold validate.
  destruct (request_json request) as [body0|]; [|discriminate].
  destruct (destructure body0) as [[[[[n e] p] ph] r]|err]; [|discriminate].
  destruct (truthy n) eqn:Tn; simpl; [|discriminate].
  destruct (truthy e) eqn:Te; simpl; [|discriminate].
  destruct (truthy p) eqn:Tp; simpl; [|discriminate].
  destruct (emailRegex_test e) as [[]|] eqn:Re; simpl; try discriminate.
  destruct (obind (member_length p) lt_6) as [[]|] eqn:L; try discriminate.
  intros H. injection H as <- <- <- <- <- <-. auto.
Qed.

Lemma POST_world_accepted (request : Request) (w : world)
    (body name email password phone role : value) :
  validate request = Accepted body name email password phone role ->
  snd (POST request w) = snd (POST_database body name email password phone role w).
Proof.
  intros Hv. rewrite (POST_accepted _ _ _ _ _ _ _ _ Hv).
  destruct (POST_database body name email password phone role w) as [[r|err] w'];
    [reflexivity|].
  destruct (catch_database err); reflexivity.
Qed.

(** The [catch] clauses never answer 201. *)
Lemma catch_not_201 (error : thrown) (w' : world) :
  status (fst match catch_database error with
              | Return response => (response, w')
              | Throw _ => (handleError "An unexpected error occurred" 500, w')
              end) <> 201%Z.
Proof.
  destruct (catch_database_cases error) as [(m & st & -> & [->| ->])|[e ->]];
    simpl; discriminate.
Qed.

Lemma emailRegex_test_Str (request : Request)
    (body name password phone role : value) (e : string) :
  validate request = Accepted body name (Str e) password phone role ->
  regex_test emailRegex e = true.
Proof.
  intros Hv. destruct (validate_accepted_checks _ _ _ _ _ _ _ Hv)
    as (_ & _ & _ & Hre & _).
  unfold emailRegex_test, ToString, obind in Hre. injection Hre as ->. reflexivity.
Qed.

Lemma toLowerCase_app (s t : string) :
  toLowerCase (s ++ t) = toLowerCase s ++ toLowerCase t.
Proof.
  induction s as [|c r IH]; simpl; [reflexivity|]. rewrite IH. reflexivity.
Qed.

Lemma not_space_at_lower_char (c : ascii) :
  not_space_at (lower_char c) = not_space_at c.
Proof.
  destruct c as [[] [] [] [] [] [] [] []]; reflexivity.
Qed.

Lemma toLowerCase_not_space_at (s : string) :
  all_chars not_space_at (toLowerCase s) = all_chars not_space_at s.
Proof.
  induction s as [|c r IH]; cbn [toLowerCase all_chars]; [reflexivity|].
  rewrite not_space_at_lower_char, IH. reflexivity.
Qed.

(** Lower-casing keeps the shape [local@domain.tld]. *)
Lemma toLowerCase_shape (s : string) :
  local_at_domain_tld s -> local_at_domain_tld (toLowerCase s).
Proof.
  intros (l & d & t & -> & Hl & Hd & Ht & Al & Ad & At).
  exists (toLowerCase l), (toLowerCase d), (toLowerCase t).
  rewrite !toLowerCase_app, !toLowerCase_not_space_at.
  repeat split; try assumption; try reflexivity.
  - destruct l; [contradiction|discriminate].
  - destruct d; [contradiction|discriminate].
  - destruct t; [contradiction|discriminate].
Qed.

(** *** Validation, rule by rule *)




(** X4.  The pattern [/^[^\s@]+@[^\s@]+\.[^\s@]+$/] accepts exactly the
    strings [local@domain.tld] made of three non-empty runs free of white
    space and of [@]; a string it accepts has no white space, exactly one
    [@] and at least five characters. *)
Theorem emailRegex_accepts (s : string) :
  (regex_test emailRegex s = true <-> local_at_domain_tld s)
  /\ (regex_test emailRegex s = true ->
      no_space s = true /\ count_char "@" s = 1 /\ 5 <= String.length s).
Proof.
  split; [apply emailRegex_shape|].
  intros H. apply local_at_domain_tld_facts, emailRegex_shape, H.
Qed.

(** *** The record handed to the repository *)

(** X5.  The email of a record handed to [User.create] is the lower-cased
    email of the body: the pattern has excluded white space, so [trim]
    removes nothing.  It is again accepted by the pattern of the handler. *)
Theorem created_email_lower_cased (request : Request) (w : world)
    (userData : UserData) :
  In (Create userData) (new_calls request w) ->
  exists body e,
    request_json request = Some body
    /\ member body "email" = Str e
    /\ email userData = toLowerCase e
    /\ regex_test emailRegex (email userData) = true.
Proof.
  intros Hin.
  destruct (Create_call_inv _ _ _ Hin)
    as (body & n & e & password & phone & role & phone' & Hv & _ & ->).
  destruct (validate_accepted_fields _ _ _ _ _ _ _ Hv) as (Hjson & _ & He & _).
  pose proof (emailRegex_test_Str _ _ _ _ _ _ _ Hv) as Hre.
  apply emailRegex_shape in Hre.
  destruct (local_at_domain_tld_facts _ Hre) as (Hns & _ & _).
  assert (Htrim : trim (toLowerCase e) = toLowerCase e).
  { apply trim_fixed, no_space_trimmed. rewrite toLowerCase_no_space. exact Hns. }
  exists body, e. cbn [email]. rewrite Htrim.
  repeat split; auto.
  apply emailRegex_shape, toLowerCase_shape, Hre.
Qed.

(** X6.  The presence of [name] is checked before it is trimmed: a name made
    of white space only passes the check, and the record handed to
    [User.create] has the empty name. *)
Theorem blank_name_reaches_repository (request : Request) (w : world)
    (body : value) (n e p : string) (phone' : option string) (s1 s2 : store) :
  request_json request = Some body ->
  member body "name" = Str n -> n <> "" -> all_chars is_space n = true ->
  member body "email" = Str e -> regex_test emailRegex e = true ->
  member body "password" = Str p -> 6 <= String.length p ->
  optional_trim "phone" (member body "phone") = Return phone' ->
  connectDB (db w) = (Return tt, s1) ->
  User_findOne (Str e) s1 = (Return None, s2) ->
  exists userData,
    new_calls request w = [Connect; FindOne (Str e); Create userData]
    /\ name userData = "".
Proof.
  intros Hjson Hn Hn0 Hblank He Hre Hp Hlen Hph Hc Hf.
  assert (Hv : validate request
               = Accepted body (Str n) (Str e) (Str p) (member body "phone")
                   match member body "role" with Undefined => Str "user" | v => v end).
  { rewrite (validate_strings _ _ _ _ _ Hjson Hn He Hp).
    assert (En : String.eqb n "" = false) by (apply String.eqb_neq; exact Hn0).
    assert (Ee : String.eqb e "" = false).
    { apply String.eqb_neq. intros ->. discriminate Hre. }
    assert (Ep : String.eqb p "" = false).
    { apply String.eqb_neq. intros ->. simpl in Hlen. lia. }
    rewrite En, Ee, Ep, Hre. simpl.
    assert (El : (Z.of_nat (String.length p) <? 6)%Z = false)
      by (apply Z.ltb_ge; lia).
    rewrite El. reflexivity. }
  unfold new_calls. rewrite (POST_world_accepted _ _ _ _ _ _ _ _ Hv).
  rewrite POST_database_unfold, Hc, Hf. unfold call_string_method.
  rewrite Hph. cbv zeta.
  eexists. split.
  - destruct (User_create _ s2) as [[userObject|err] s3]; simpl;
      apply skipn_length_app.
  - simpl. apply trim_all_space, Hblank.
Qed.

(** X7.  The password of a record handed to [User.create] is the password
    of the body as sent, neither trimmed nor lower-cased, and the record
    has an [employeeId] exactly when the body has a truthy one. *)
Theorem password_handed_unchanged (request : Request) (w : world)
    (userData : UserData) :
  In (Create userData) (new_calls request w) ->
  exists body,
    request_json request = Some body
    /\ password userData = member body "password"
    /\ employeeId userData
       = (if truthy (member body "employeeId")
          then Some (member body "employeeId") else None).
Proof.
  intros Hin.
  destruct (Create_call_inv _ _ _ Hin)
    as (body & n & e & password & phone & role & phone' & Hv & _ & ->).
  destruct (validate_accepted_fields _ _ _ _ _ _ _ Hv)
    as (Hjson & _ & _ & -> & _).
  exists body. auto.
Qed.

(** X8.  The name and the email of a record handed to [User.create] are
    fixed points of the normalisation: trimming the name again, or
    lower-casing and trimming the email again, changes nothing. *)
Theorem created_record_stable (request : Request) (w : world)
    (userData : UserData) :
  In (Create userData) (new_calls request w) ->
  trim (name userData) = name userData
  /\ trim (toLowerCase (email userData)) = email userData.
Proof.
  intros Hin.
  destruct (Create_call_inv _ _ _ Hin)
    as (body & n & e & password & phone & role & phone' & _ & _ & ->).
  cbn [name email]. split.
  - apply trim_fixed, trim_trimmed.
  - rewrite <- trim_toLowerCase, toLowerCase_idempotent.
    apply trim_fixed, trim_trimmed.
Qed.

(** *** What the handler asks of the repository *)

(** X9.  A request asks the repository, in this order and at most once
    each, to connect, to look up the email of the body as sent, and to
    create one record: nothing is created without a lookup before it, and
    never more than one record. *)
Theorem calls_in_order (request : Request) (w : world) :
  new_calls request w = []
  \/ new_calls request w = [Connect]
  \/ exists body,
       request_json request = Some body
       /\ (new_calls request w = [Connect; FindOne (member body "email")]
           \/ exists userData,
                new_calls request w
                = [Connect; FindOne (member body "email"); Create userData]).
Proof.
  destruct (validate request) as [response|e|body name email password phone role]
    eqn:Hv.
  - left. apply new_calls_not_accepted. rewrite Hv. discriminate.
  - left. apply new_calls_not_accepted. rewrite Hv. discriminate.
  - destruct (validate_accepted_fields _ _ _ _ _ _ _ Hv) as (Hjson & _ & He & _).
    subst email. unfold new_calls.
    rewrite (POST_world_accepted _ _ _ _ _ _ _ _ Hv), POST_database_unfold.
    destruct (connectDB (db w)) as [[u|err] s1];
      [|right; left; apply skipn_length_app].
    right; right. exists body. split; [exact Hjson|].
    destruct (User_findOne (member body "email") s1) as [[[existing|]|err] s2];
      try (left; apply skipn_length_app).
    destruct (call_string_method trim "name" "trim" name);
      [|left; apply skipn_length_app].
    destruct (call_string_method toLowerCase "email" "toLowerCase"
                (member body "email")); [|left; apply skipn_length_app].
    destruct (optional_trim "phone" phone); [|left; apply skipn_length_app].
    cbv zeta. right. eexists.
    destruct (User_create _ s2) as [[userObject|err] s3]; apply skipn_length_app.
Qed.

(** X10.  A 201 is answered only when [User.create] has been called and has
    returned: the [user] of the answer is the returned document without its
    [password], every other property being kept, and the store is the one
    [User.create] left. *)
Theorem created_only_when_create_returns (request : Request) (w : world) :
  status (fst (POST request w)) = 201%Z ->
  exists v userData s userObject,
    new_calls request w = [Connect; FindOne v; Create userData]
    /\ User_create userData s = (Return userObject, db (snd (POST request w)))
    /\ json (fst (POST request w))
       = Obj [("user", Obj (delete "password" userObject));
              ("message", Str "User created successfully");
              ("success", Bool true)]
    /\ (forall k, k <> "password" ->
         lookup k (delete "password" userObject) = lookup k userObject).
Proof.
  destruct (validate request) as [response|e|body name email password phone role]
    eqn:Hv.
  - rewrite (POST_rejected _ w _ Hv).
    destruct (validate_rejected_400 _ _ Hv) as [m ->]. discriminate.
  - rewrite (POST_faulted _ w _ Hv). discriminate.
  - unfold new_calls. rewrite (POST_accepted _ w _ _ _ _ _ _ Hv).
    rewrite POST_database_unfold.
    destruct (connectDB (db w)) as [[u|err] s1];
      [|intros H; exfalso; exact (catch_not_201 _ _ H)].
    destruct (User_findOne email s1) as [[[existing|]|err] s2];
      [discriminate| |intros H; exfalso; exact (catch_not_201 _ _ H)].
    destruct (call_string_method trim "name" "trim" name);
      [|intros H; exfalso; exact (catch_not_201 _ _ H)].
    destruct (call_string_method toLowerCase "email" "toLowerCase" email);
      [|intros H; exfalso; exact (catch_not_201 _ _ H)].
    destruct (optional_trim "phone" phone);
      [|intros H; exfalso; exact (catch_not_201 _ _ H)].
    cbv zeta.
    destruct (User_create _ s2) as [[userObject|err] s3] eqn:Hcr;
      [|intros H; exfalso; exact (catch_not_201 _ _ H)].
    intros _. do 4 eexists.
    split; [simpl; apply skipn_length_app|].
    split; [exact Hcr|].
    split; [reflexivity|].
    intros k Hk. apply lookup_delete_other, String.eqb_neq, Hk.
Qed.

(** X11.  [success: true] is in the body of a response exactly when its
    status is 201; any other response has status 400 or 500 and a body
    made of [message] alone. *)
Theorem success_flag_iff_201 (request : Request) (w : world) :
  (member (json (fst (POST request w))) "success" = Bool true
   <-> status (fst (POST request w)) = 201%Z)
  /\ (status (fst (POST request w)) <> 201%Z ->
      (status (fst (POST request w)) = 400%Z
       \/ status (fst (POST request w)) = 500%Z)
      /\ exists message,
           json (fst (POST request w)) = Obj [("message", Str message)]).
Proof.
  destruct (POST_response_cases request w) as [(m & st & -> & Hst)|[u ->]]; simpl.
  - split.
    + split; [discriminate|]. intros ->. destruct Hst; discriminate.
    + intros _. split; [exact Hst|]. exists m. reflexivity.
  - split; [split; reflexivity|]. intros H. contradiction.
Qed.

(** *** Faults of the database block *)




(** X15.  A failure stops the flow where it happens: when [connectDB]
    throws, nothing is looked up or created; when the lookup throws,
    nothing is created; the store is left as the failing call left it. *)
Theorem failure_stops_the_flow (request : Request) (w : world)
    (body name email password phone role : value) :
  validate request = Accepted body name email password phone role ->
  (forall error s1,
      connectDB (db w) = (Throw error, s1) ->
      new_calls request w = [Connect] /\ db (snd (POST request w)) = s1)
  /\ (forall error s1 s2,
        connectDB (db w) = (Return tt, s1) ->
        User_findOne email s1 = (Throw error, s2) ->
        new_calls request w = [Connect; FindOne email]
        /\ db (snd (POST request w)) = s2).
Proof.
  intros Hv. unfold new_calls. rewrite (POST_world_accepted _ _ _ _ _ _ _ _ Hv).
  split.
  - intros error s1 Hc. rewrite (connectDB_failure _ _ _ _ _ _ _ _ _ Hc). simpl.
    split; [apply skipn_length_app|reflexivity].
  - intros error s1 s2 Hc Hf.
    rewrite (findOne_failure _ _ _ _ _ _ _ _ _ _ Hc Hf). simpl.
    split; [apply skipn_length_app|reflexivity].
Qed.

(** An accepted request starts by asking for the connection. *)
Lemma new_calls_accepted_Connect (request : Request) (w : world)
    (body name email password phone role : value) :
  validate request = Accepted body name email password phone role ->
  exists rest, new_calls request w = Connect :: rest.
Proof.
  intros Hv. unfold new_calls.
  rewrite (POST_world_accepted _ _ _ _ _ _ _ _ Hv), POST_database_unfold.
  destruct (connectDB (db w)) as [[u|err] s1];
    [|eexists; apply skipn_length_app].
  destruct (User_findOne email s1) as [[[existing|]|err] s2];
    try (eexists; apply skipn_length_app).
  destruct (call_string_method trim "name" "trim" name);
    [|eexists; apply skipn_length_app].
  destruct (call_string_method toLowerCase "email" "toLowerCase" email);
    [|eexists; apply skipn_length_app].
  destruct (optional_trim "phone" phone); [|eexists; apply skipn_length_app].
  cbv zeta.
  destruct (User_create _ s2) as [[userObject|err] s3];
    eexists; apply skipn_length_app.
Qed.


(** X17.  The length rule reads [password.length]: a password that is a
    number or [true] has none, the comparison with 6 is false, and the
    request -- with a name and a well-formed email -- passes the checks
    and reaches the repository, however few digits the number has. *)
Theorem non_string_password_skips_length_rule (request : Request) (w : world)
    (body : value) (e : string) :
  request_json request = Some body ->
  truthy (member body "name") = true ->
  member body "email" = Str e -> regex_test emailRegex e = true ->
  truthy (member body "password") = true ->
  (exists b, member body "password" = Bool b)
  \/ (exists z, member body "password" = Num z) ->
  exists rest, new_calls request w = Connect :: rest.
Proof.
  intros Hjson Hn He Hre Hp Hkind.
  apply (new_calls_accepted_Connect request w body (member body "name") (Str e)
           (member body "password") (member body "phone")
           match member body "role" with Undefined => Str "user" | v => v end).
  unfold validate. rewrite Hjson.
  destruct body; try discriminate He.
  unfold destructure. rewrite Hn, He, Hp.
  assert (Te : truthy (Str e) = true).
  { simpl. apply negb_true_iff, String.eqb_neq. intros ->. discriminate Hre. }
  rewrite Te. cbn [negb orb].
  unfold emailRegex_test, ToString, obind. rewrite Hre. cbn [negb].
  destruct Hkind as [[b ->]|[z ->]]; reflexivity.
Qed.

End Coverage.

(** ** The flow on the in-memory repository *)

(** With a record for the email as sent in a reachable store, an accepted
    request is turned down by the lookup and the store is left as it was. *)
Lemma in_memory_existing_email {E : Engine} (request : Request)
    (s : InMemory.state) (log : list call)
    (body name password phone role : value) (e : string) (user : object) :
  validate request = Accepted body name (Str e) password phone role ->
  InMemory.online s = true ->
  find (InMemory.has_email e) (InMemory.users s) = Some user ->
  @POST E InMemory.repository request (@Build_world InMemory.repository s log)
  = (handleError "User with this email already exists" 400,
     @Build_world InMemory.repository s (log ++ [Connect; FindOne (Str e)])).
Proof.
  intros Hv Hon Hfind.
  rewrite (POST_accepted _ _ _ _ _ _ _ _ Hv), POST_database_unfold. simpl.
  unfold InMemory.connect, InMemory.findOne, InMemory.findByEmail.
  rewrite Hon, Hfind. reflexivity.
Qed.

(** An accepted request for an email the store has no record of adds
    exactly one record, and the created user is returned without its
    password. *)
Lemma in_memory_created {E : Engine} (request : Request)
    (s : InMemory.state) (log : list call)
    (body password phone role : value) (n e : string) (phone' : option string) :
  validate request = Accepted body (Str n) (Str e) password phone role ->
  optional_trim "phone" phone = Return phone' ->
  InMemory.online s = true ->
  find (InMemory.has_email e) (InMemory.users s) = None ->
  find (InMemory.has_email (trim (toLowerCase e))) (InMemory.users s) = None ->
  let userData :=
    {| name := trim n; email := trim (toLowerCase e); password := password;
       phone := phone'; role := role;
       employeeId := if truthy (member body "employeeId")
                     then Some (member body "employeeId") else None |} in
  let doc := InMemory.document (List.length (InMemory.users s)) userData in
  @POST E InMemory.repository request (@Build_world InMemory.repository s log)
  = ({| status := 201;
        json := Obj [("user", Obj (delete "password" doc));
                     ("message", Str "User created successfully");
                     ("success", Bool true)] |},
     @Build_world InMemory.repository
       {| InMemory.online := true; InMemory.users := InMemory.users s ++ [doc] |}
       (log ++ [Connect; FindOne (Str e); Create userData])).
Proof.
  intros Hv Hph Hon Hraw Hnorm userData doc.
  rewrite (POST_accepted _ _ _ _ _ _ _ _ Hv), POST_database_unfold. simpl.
  unfold InMemory.connect, InMemory.findOne, InMemory.findByEmail.
  rewrite Hon, Hraw, Hph. cbv zeta. fold userData.
  unfold InMemory.create. simpl. rewrite Hnorm, Hon. reflexivity.
Qed.

(** ** The flow on sample requests *)

Import Samples.

Example missing_password :
  @POST engine InMemory.repository
    (request_of (Obj [("name", Str "Alice"); ("email", Str "not an email")]))
    (in_memory empty_store)
  = (handleError "Name, email, and password are required" 400,
     in_memory empty_store).
Proof. reflexivity. Qed.

Example invalid_email_before_short_password :
  @POST engine InMemory.repository
    (request_of (Obj [("name", Str "Alice"); ("email", Str "alice@example");
                      ("password", Str "abc")]))
    (in_memory empty_store)
  = (handleError "Please enter a valid email address" 400, in_memory empty_store).
Proof. reflexivity. Qed.

Example short_password :
  @POST engine InMemory.repository
    (request_of (Obj [("name", Str "Alice"); ("email", Str "alice@example.com");
                      ("password", Str "abcde")]))
    (in_memory empty_store)
  = (handleError "Password must be at least 6 characters long" 400,
     in_memory empty_store).
Proof. reflexivity. Qed.

Example unparsable_body :
  @POST engine InMemory.repository {| request_json := None |} (in_memory empty_store)
  = (handleError "Invalid JSON payload" 400, in_memory empty_store).
Proof. reflexivity. Qed.

(** The role of the body reaches [User.create] as it is: the handler does
    not compare it with the enumeration. *)
Example role_handed_over (r : string) :
  @new_calls engine InMemory.repository (request_of (with_role (Str r)))
    (in_memory empty_store)
  = [Connect; FindOne (Str "alice@example.com");
     Create {| name := "Alice"; email := "alice@example.com";
               password := Str "secret1"; phone := None; role := Str r;
               employeeId := None |}].
Proof. reflexivity. Qed.

(** A name that is not a string passes the three checks and fails in the
    database block, after the lookup. *)
Example numeric_name :
  @POST engine InMemory.repository
    (request_of (Obj [("name", Num 7); ("email", Str "alice@example.com");
                      ("password", Str "secret1")]))
    (in_memory empty_store)
  = (handleError "Database operation failed: name.trim is not a function" 500,
     @Build_world InMemory.repository empty_store
       [Connect; FindOne (Str "alice@example.com")]).
Proof. reflexivity. Qed.


Lemma valid_unique_signup_created_witness :
  @POST engine InMemory.repository (request_of alice) (in_memory empty_store)
  = ({| status := 201;
        json := Obj [("user", Obj [("_id", Num 0); ("name", Str "Alice");
                                   ("email", Str "alice@example.com");
                                   ("phone", Str "555 0100");
                                   ("role", Str "user")]);
                     ("message", Str "User created successfully");
                     ("success", Bool true)] |},
     @Build_world InMemory.repository store_with_alice
       [Connect; FindOne (Str "Alice@Example.com"); Create alice_record])
  /\ has_key "password"
       (delete "password" (InMemory.document 0 alice_record)) = false.
Proof.
  refine (@valid_unique_signup_created engine InMemory.repository
            (request_of alice) (in_memory empty_store) alice
            " Alice " "Alice@Example.com" "secret1" (Some "555 0100")
            empty_store empty_store store_with_alice
            (InMemory.document 0 alice_record)
            eq_refl eq_refl _ eq_refl eq_refl eq_refl _ eq_refl eq_refl eq_refl
            eq_refl).
  - discriminate.
  - simpl. lia.
Defined.






Lemma created_record_normalized_witness :
  exists body n e,
    request_json (request_of alice) = Some body
    /\ member body "name" = Str n /\ name alice_record = trim n
    /\ member body "email" = Str e /\ email alice_record = trim (toLowerCase e)
    /\ phone alice_record = match member body "phone" with
                            | Str p => Some (trim p)
                            | _ => None
                            end
    /\ trimmed (name alice_record) = true
    /\ trimmed (email alice_record) = true
    /\ lower_cased (email alice_record) = true
    /\ (forall p, phone alice_record = Some p -> trimmed p = true).
Proof.
  refine (proj1 (@created_record_normalized engine InMemory.repository
                   (request_of alice) (in_memory empty_store)) alice_record _).
  right. right. left. reflexivity.
Defined.





Lemma emailRegex_accepts_witness :
  no_space "alice@example.com" = true
  /\ count_char "@" "alice@example.com" = 1
  /\ 5 <= String.length "alice@example.com".
Proof.
  exact (proj2 (emailRegex_accepts "alice@example.com") eq_refl).
Defined.

Lemma created_email_lower_cased_witness :
  exists body e,
    request_json (request_of alice) = Some body
    /\ member body "email" = Str e
    /\ email alice_record = toLowerCase e
    /\ regex_test emailRegex (email alice_record) = true.
Proof.
  refine (@created_email_lower_cased engine InMemory.repository
            (request_of alice) (in_memory empty_store) alice_record _).
  right. right. left. reflexivity.
Defined.

Lemma blank_name_reaches_repository_witness :
  exists userData,
    @new_calls engine InMemory.repository (request_of blank_name)
      (in_memory empty_store)
    = [Connect; FindOne (Str "alice@example.com"); Create userData]
    /\ name userData = "".
Proof.
  refine (@blank_name_reaches_repository engine InMemory.repository
            (request_of blank_name) (in_memory empty_store) blank_name
            "   " "alice@example.com" "secret1" None empty_store empty_store
            eq_refl eq_refl _ eq_refl eq_refl eq_refl eq_refl _ eq_refl
            eq_refl eq_refl).
  - discriminate.
  - simpl. lia.
Defined.

Lemma password_handed_unchanged_witness :
  exists body,
    request_json (request_of alice) = Some body
    /\ password alice_record = member body "password"
    /\ employeeId alice_record
       = (if truthy (member body "employeeId")
          then Some (member body "employeeId") else None).
Proof.
  refine (@password_handed_unchanged engine InMemory.repository
            (request_of alice) (in_memory empty_store) alice_record _).
  right. right. left. reflexivity.
Defined.

Lemma created_record_stable_witness :
  trim (name alice_record) = name alice_record
  /\ trim (toLowerCase (email alice_record)) = email alice_record.
Proof.
  refine (@created_record_stable engine InMemory.repository
            (request_of alice) (in_memory empty_store) alice_record _).
  right. right. left. reflexivity.
Defined.

Lemma created_only_when_create_returns_witness :
  exists v userData s userObject,
    @new_calls engine InMemory.repository (request_of alice) (in_memory empty_store)
    = [Connect; FindOne v; Create userData]
    /\ @User_create InMemory.repository userData s
       = (Return userObject,
          db (snd (@POST engine InMemory.repository (request_of alice)
                     (in_memory empty_store))))
    /\ json (fst (@POST engine InMemory.repository (request_of alice)
                    (in_memory empty_store)))
       = Obj [("user", Obj (delete "password" userObject));
              ("message", Str "User created successfully");
              ("success", Bool true)]
    /\ (forall k, k <> "password" ->
         lookup k (delete "password" userObject) = lookup k userObject).
Proof.
  exact (@created_only_when_create_returns engine InMemory.repository
           (request_of alice) (in_memory empty_store) eq_refl).
Defined.




Lemma failure_stops_the_flow_witness :
  @new_calls engine InMemory.repository (request_of alice) (in_memory offline_store)
  = [Connect]
  /\ db (snd (@POST engine InMemory.repository (request_of alice)
                (in_memory offline_store))) = offline_store.
Proof.
  exact (proj1 (@failure_stops_the_flow engine InMemory.repository
                  (request_of alice) (in_memory offline_store)
                  alice (Str " Alice ") (Str "Alice@Example.com") (Str "secret1")
                  (Str " 555 0100 ") (Str "user") eq_refl)
           InMemory.ConnectionFailure offline_store eq_refl).
Defined.


Lemma non_string_password_skips_length_rule_witness :
  exists rest,
    @new_calls engine InMemory.repository
      (request_of (Obj [("name", Str "Alice"); ("email", Str "alice@example.com");
                        ("password", Num 1)]))
      (in_memory empty_store)
    = Connect :: rest.
Proof.
  exact (@non_string_password_skips_length_rule engine InMemory.repository
           (request_of (Obj [("name", Str "Alice");
                             ("email", Str "alice@example.com");
                             ("password", Num 1)]))
           (in_memory empty_store)
           (Obj [("name", Str "Alice"); ("email", Str "alice@example.com");
                 ("password", Num 1)])
           "alice@example.com" eq_refl eq_refl eq_refl eq_refl eq_refl
           (or_intror (ex_intro _ 1%Z eq_refl))).
Defined.

End Signup.
